(** * The Jellyfin device profile of the Tizen client

    A shallow embedding of [src/js/browser-device-profile.js]
    (the [BrowserDeviceProfile] module) and the properties of the
    negotiation document it builds.

    Layout:
    - [JS]: the few JavaScript primitives the module relies on
      (string search, the one regular expression, number printing);
    - the ambient platform ([Platform]) and the module's own mutable
      variables ([Caches]), threaded through a small state monad;
    - the capability probes, in source order;
    - the document records and [getDeviceProfile];
    - the pure reading of the builder ([Facts], [assemble]) and its
      agreement with [getDeviceProfile];
    - the properties. *)

From Stdlib Require Import String Ascii List ZArith QArith Bool Lia DecimalString.
Import ListNotations.
Open Scope string_scope.
Open Scope list_scope.
Open Scope Z_scope.

(* ================================================================== *)
(** ** JavaScript primitives *)
(* ================================================================== *)

Module JS.

(** The double-quote character, for the codec parameters of MIME types. *)
Definition dquote : string := String (ascii_of_nat 34) EmptyString.

(** [codecs "video/mp4" "hvc1.1.L120"] is the source literal
    ['video/mp4; codecs="hvc1.1.L120"']. *)
Definition codecs (mime c : string) : string :=
  String.append mime
    (String.append "; codecs=" (String.append dquote (String.append c dquote))).

Definition in_range (lo hi : nat) (c : ascii) : bool :=
  let n := nat_of_ascii c in (Nat.leb lo n && Nat.leb n hi)%bool.

(** [String.prototype.toLowerCase] on code units below 256: [A-Z] and the
    Latin-1 capitals (all of 192..222 but the multiplication sign) move up
    by 32.  No other character lower-cases to a letter of "tizen" followed
    directly by the next letter, so the search below is not affected by
    the rest of Unicode. *)
Definition lower_char (c : ascii) : ascii :=
  if (in_range 65 90 c
      || (in_range 192 222 c && negb (Nat.eqb (nat_of_ascii c) 215)))%bool
  then ascii_of_nat (nat_of_ascii c + 32) else c.

Fixpoint toLowerCase (s : string) : string :=
  match s with
  | EmptyString => EmptyString
  | String c s' => String (lower_char c) (toLowerCase s')
  end.

(** [s.indexOf(pat)], with -1 for "not found". *)
Fixpoint indexOf_from (i : Z) (s pat : string) : Z :=
  if prefix pat s then i
  else match s with
       | EmptyString => -1
       | String _ s' => indexOf_from (i + 1) s' pat
       end.

Definition indexOf (s pat : string) : Z := indexOf_from 0 s pat.

(** [s.replace(/no/, empty)]: the first occurrence of "no" is removed. *)
Fixpoint replace_no (s : string) : string :=
  match s with
  | String "n" (String "o" rest) => rest
  | String c s' => String c (replace_no s')
  | EmptyString => EmptyString
  end.

(** Truthiness of a string and of a number. *)
Definition truthy_string (s : string) : bool :=
  match s with EmptyString => false | String _ _ => true end.

Definition truthy_number (n : Z) : bool := negb (n =? 0).

(** [Number.prototype.toString] on the integers the module prints. *)
Definition toString (n : Z) : string := NilZero.string_of_int (Z.to_int n).

(** [Array.prototype.join] and [push]; truthiness of [arr.length]. *)
Definition join (l : list string) (sep : string) : string := String.concat sep l.

Definition push {A : Type} (arr : list A) (items : list A) : list A := arr ++ items.

Definition truthy_length {A : Type} (arr : list A) : bool :=
  negb (Nat.eqb (List.length arr) 0).

(** *** The regular expression [/Tizen\s+(\d+)\.(\d+)/i] *)

(** [\s] and [\d] on code units below 256. *)
Definition isSpace (c : ascii) : bool :=
  (in_range 9 13 c || Nat.eqb (nat_of_ascii c) 32 || Nat.eqb (nat_of_ascii c) 160)%bool.

Definition isDigit (c : ascii) : bool := in_range 48 57 c.

(** The longest prefix whose characters satisfy [p], and the rest. *)
Fixpoint span (p : ascii -> bool) (s : string) : string * string :=
  match s with
  | String c s' =>
      if p c then let (a, b) := span p s' in (String c a, b)
      else (EmptyString, s)
  | EmptyString => (EmptyString, EmptyString)
  end.

(** Case-insensitive literal: [pat] is given in lower case. *)
Fixpoint skip_ci (pat s : string) : option string :=
  match pat, s with
  | EmptyString, _ => Some s
  | String p pat', String c s' =>
      if Ascii.eqb p (lower_char c) then skip_ci pat' s' else None
  | String _ _, EmptyString => None
  end.

(** One attempt at a given start position.  The character classes of the
    pattern are pairwise disjoint from what follows them, so the greedy
    reading of each [+] is the only one that can succeed. *)
Definition match_here (s : string) : option (string * string) :=
  match skip_ci "tizen" s with
  | None => None
  | Some r0 =>
      let (ws, r1) := span isSpace r0 in
      if truthy_string ws then
        let (major, r2) := span isDigit r1 in
        if truthy_string major then
          match r2 with
          | String "." r3 =>
              let (minor, _) := span isDigit r3 in
              if truthy_string minor then Some (major, minor) else None
          | _ => None
          end
        else None
      else None
  end.

(** [s.match(re)]: the leftmost start position that matches; the result
    carries the two captured groups. *)
Fixpoint match_TizenVersion (s : string) : option (string * string) :=
  match match_here s with
  | Some m => Some m
  | None =>
      match s with
      | String _ s' => match_TizenVersion s'
      | EmptyString => None
      end
  end.

(** [parseInt(digits, 10)] on a captured [\d+]. *)
Fixpoint parseInt_from (acc : Z) (s : string) : Z :=
  match s with
  | String c s' =>
      if isDigit c
      then parseInt_from (10 * acc + (Z.of_nat (nat_of_ascii c) - 48)) s'
      else acc
  | EmptyString => acc
  end.

Definition parseInt (s : string) : Z := parseInt_from 0 s.

(** Numeric comparisons of the version.  The version is [major + minor/10];
    it is only ever compared with 3, 4, 5, 5.5 and 6.5, which binary
    floating point represents exactly, so the comparisons on rationals
    and on doubles agree. *)
Definition geq (x y : Q) : bool := Qle_bool y x.
Definition lt (x y : Q) : bool := negb (Qle_bool y x).

End JS.

(* ================================================================== *)
(** ** The platform and the module's variables *)
(* ================================================================== *)

(** A media element as far as the module uses it: [canPlayType] may be
    missing; when present it answers a MIME type with a string
    (empty, "maybe", "probably", or "no" on old engines). *)
Record MediaElement := { canPlayType : option (string -> string) }.

(** Outcome of a call that may throw. *)
Inductive Completion (A : Type) : Type :=
| Normal (a : A)
| Throw (e : string).
Arguments Normal {A} a.
Arguments Throw {A} e.

(** [webapis.productinfo]. *)
Record ProductInfo := { isUdPanelSupported : Completion bool }.

(** The [webapis] global; [productinfo] may be missing. *)
Record WebApis := { productinfo : option ProductInfo }.

(** Everything ambient the module reads. *)
Record Platform := {
  tizen_defined : bool;                        (* typeof tizen !== "undefined" *)
  userAgent : string;                          (* navigator.userAgent *)
  createElement : string -> MediaElement;      (* document.createElement(tag) *)
  window_MediaSource : bool;                   (* window.MediaSource != null *)
  webapis : option WebApis                     (* None: typeof webapis === "undefined" *)
}.

(** The module-level variables that the profile code reads or writes,
    and the console it logs to. *)
Record Caches := {
  _canPlayHls : option bool;
  videoTestElement : option MediaElement;
  console : list string
}.

Definition fresh : Caches :=
  {| _canPlayHls := None; videoTestElement := None; console := [] |}.

(** State passing over [Caches]. *)
Definition M (A : Type) : Type := Caches -> A * Caches.

Definition ret {A : Type} (a : A) : M A := fun s => (a, s).

Definition bind {A B : Type} (m : M A) (k : A -> M B) : M B :=
  fun s => let (a, s') := m s in k a s'.

Notation "x <- m ;; k" := (bind m (fun x => k))
  (at level 61, m at next level, right associativity).

(** [arr.forEach(body)] where [body] only updates the local [acc]. *)
Definition forEach {A X : Type} (arr : list A) (body : A -> X -> X) (acc : X) : X :=
  fold_left (fun acc a => body a acc) arr acc.

(** [!!(el.canPlayType && ...)]: is the method there at all. *)
Definition has_canPlayType (el : MediaElement) : bool :=
  match canPlayType el with Some _ => true | None => false end.

(** Truthiness of [el.canPlayType(t).replace(/no/, empty)]; only evaluated
    behind [has_canPlayType]. *)
Definition plays (el : MediaElement) (t : string) : bool :=
  match canPlayType el with
  | Some f => JS.truthy_string (JS.replace_no (f t))
  | None => false
  end.

(* ================================================================== *)
(** ** The capability probes *)
(* ================================================================== *)

Section Probes.

Variable env : Platform.

Definition getVideoTestElement : M MediaElement :=
  fun s =>
    match videoTestElement s with
    | Some v => (v, s)
    | None =>
        let v := createElement env "video" in
        (v, {| _canPlayHls := _canPlayHls s;
               videoTestElement := Some v;
               console := console s |})
    end.

Definition isTizen : bool :=
  tizen_defined env
  || negb (JS.indexOf (JS.toLowerCase (userAgent env)) "tizen" =? -1).

Definition getTizenVersion : Q :=
  if negb isTizen then 0%Q
  else match JS.match_TizenVersion (userAgent env) with
       | Some (major, minor) =>
           (inject_Z (JS.parseInt major) + inject_Z (JS.parseInt minor) / 10)%Q
       | None => 4.0%Q
       end.

Definition canPlayH264 : M bool :=
  video <- getVideoTestElement ;;
  ret (has_canPlayType video
       && plays video (JS.codecs "video/mp4" "avc1.42E01E, mp4a.40.2")).

Definition canPlayHevc : M bool :=
  if isTizen then ret true
  else
    video <- getVideoTestElement ;;
    ret (has_canPlayType video
         && (plays video (JS.codecs "video/mp4" "hvc1.1.L120")
             || plays video (JS.codecs "video/mp4" "hev1.1.L120")
             || plays video (JS.codecs "video/mp4" "hvc1.1.0.L120")
             || plays video (JS.codecs "video/mp4" "hev1.1.0.L120"))).

Definition canPlayAv1 : M bool :=
  let tizenVersion := getTizenVersion in
  if JS.geq tizenVersion 5.5 then ret true
  else
    video <- getVideoTestElement ;;
    ret (has_canPlayType video
         && plays video (JS.codecs "video/mp4" "av01.0.15M.08")
         && plays video (JS.codecs "video/mp4" "av01.0.15M.10")).

Definition canPlayVp8 : M bool :=
  video <- getVideoTestElement ;;
  ret (has_canPlayType video && plays video (JS.codecs "video/webm" "vp8")).

Definition canPlayVp9 : M bool :=
  video <- getVideoTestElement ;;
  ret (has_canPlayType video && plays video (JS.codecs "video/webm" "vp9")).

Definition supportsAc3 : M bool :=
  if isTizen then ret true
  else
    video <- getVideoTestElement ;;
    ret (has_canPlayType video && plays video (JS.codecs "audio/mp4" "ac-3")).

Definition supportsEac3 : M bool :=
  if isTizen then ret true
  else
    video <- getVideoTestElement ;;
    ret (has_canPlayType video && plays video (JS.codecs "audio/mp4" "ec-3")).

Definition canPlayDts : M bool :=
  let tizenVersion := getTizenVersion in
  if JS.geq tizenVersion 4 then ret false
  else
    video <- getVideoTestElement ;;
    ret (has_canPlayType video
         && (plays video (JS.codecs "video/mp4" "dts-")
             || plays video (JS.codecs "video/mp4" "dts+"))).

Definition canPlayNativeHls : M bool :=
  if isTizen then ret true
  else
    video <- getVideoTestElement ;;
    ret (has_canPlayType video
         && (plays video "application/x-mpegURL"
             || plays video "application/vnd.apple.mpegURL")).

Definition canPlayHlsWithMSE : bool := window_MediaSource env.

Definition canPlayHls : M bool :=
  fun s =>
    match _canPlayHls s with
    | None =>
        let (native, s1) := canPlayNativeHls s in
        let v := native || canPlayHlsWithMSE in
        (v, {| _canPlayHls := Some v;
               videoTestElement := videoTestElement s1;
               console := console s1 |})
    | Some v => (v, s)
    end.

Definition canPlayNativeHlsInFmp4 : bool :=
  let tizenVersion := getTizenVersion in
  JS.geq tizenVersion 5.

Definition supportsHdr10 : bool := isTizen.

Definition supportsHlg : bool := supportsHdr10.

Definition supportsDolbyVision : bool := false.

Definition canPlayMkv : M bool :=
  if isTizen then ret true
  else
    video <- getVideoTestElement ;;
    ret (has_canPlayType video
         && (plays video "video/x-matroska" || plays video "video/mkv")).

Definition canPlayTs : bool := isTizen.

(** The MIME type chosen for a format; [None] is the [undefined]
    [typeString] of a format outside the chain. *)
Definition typeString_of (format : string) : option string :=
  if String.eqb format "opus" then Some (JS.codecs "audio/ogg" "opus")
  else if String.eqb format "webma" then Some "audio/webm"
  else if String.eqb format "mp3" then Some "audio/mpeg"
  else if String.eqb format "aac" then Some (JS.codecs "audio/mp4" "mp4a.40.2")
  else if String.eqb format "flac" then Some "audio/flac"
  else if String.eqb format "wav" then Some "audio/wav"
  else if String.eqb format "ogg" then Some "audio/ogg"
  else None.

Definition canPlayAudioFormat (format : string) : bool :=
  if isTizen && ((String.eqb format "flac") || (String.eqb format "asf") || (String.eqb format "wma"))
  then true
  else
    match typeString_of format with
    | Some typeString =>
        if JS.truthy_string typeString then
          let audio := createElement env "audio" in
          has_canPlayType audio && plays audio typeString
        else false
    | None => false
    end.

Definition getMaxH264Level : M Z :=
  video <- getVideoTestElement ;;
  let tizenVersion := getTizenVersion in
  if JS.geq tizenVersion 5 then ret 52
  else if isTizen then ret 51
  else if has_canPlayType video
          && plays video (JS.codecs "video/mp4" "avc1.640833")
  then ret 51
  else ret 42.

Definition getMaxHevcLevel : M Z :=
  video <- getVideoTestElement ;;
  if has_canPlayType video && plays video (JS.codecs "video/mp4" "hvc1.2.4.L186")
  then ret 186
  else if has_canPlayType video && plays video (JS.codecs "video/mp4" "hvc1.2.4.L183")
  then ret 183
  else if has_canPlayType video && plays video (JS.codecs "video/mp4" "hvc1.2.4.L153")
  then ret 153
  else if isTizen then ret 153
  else ret 120.

Definition getHevcProfiles : M string :=
  video <- getVideoTestElement ;;
  if has_canPlayType video
     && (plays video (JS.codecs "video/mp4" "hvc1.2.4.L123")
         || plays video (JS.codecs "video/mp4" "hev1.2.4.L123"))
  then ret "main|main 10"
  else if isTizen then ret "main|main 10"
  else ret "main".

Definition getPhysicalAudioChannels : Z :=
  if isTizen then 6 else 2.

(** [console.log(msg, e)]. *)
Definition console_log (msg e : string) : M unit :=
  fun s =>
    (tt, {| _canPlayHls := _canPlayHls s;
            videoTestElement := videoTestElement s;
            console := console s ++ [String.append msg (String.append " " e)] |}).

(** The body of the [try] block: [Normal (Some r)] is [return r],
    [Normal None] is falling out of the block, [Throw e] an exception. *)
Definition panel_limit : Completion (option Z) :=
  match webapis env with
  | Some w =>
      match productinfo w with
      | Some info =>
          match isUdPanelSupported info with
          | Normal isUhd => if negb isUhd then Normal (Some 20000000) else Normal None
          | Throw e => Throw e
          end
      | None => Normal None
      end
  | None => Normal None
  end.

(** [null] is [None]. *)
Definition getGlobalMaxVideoBitrate : M (option Z) :=
  if isTizen then
    match panel_limit with
    | Normal (Some r) => ret (Some r)
    | Normal None => ret None
    | Throw e =>
        _ <- console_log "[BrowserDeviceProfile] Could not detect panel type:" e ;;
        ret None
    end
  else ret None.

End Probes.

(* ================================================================== *)
(** ** The negotiation document *)
(* ================================================================== *)

(** A property that an object literal leaves out is [None]. *)

Module ProfileCondition.
Record t := {
  Condition : string;
  Property : string;
  Value : string;
  IsRequired : option bool
}.
End ProfileCondition.

Module DirectPlayProfile.
Record t := {
  Container : string;
  Type_ : string;
  VideoCodec : option string;
  AudioCodec : option string
}.
End DirectPlayProfile.

Module TranscodingProfile.
Record t := {
  Container : string;
  Type_ : string;
  AudioCodec : string;
  VideoCodec : option string;
  Context : string;
  Protocol : string;
  MaxAudioChannels : string;
  MinSegments : option string;
  BreakOnNonKeyFrames : option bool
}.
End TranscodingProfile.

Module ContainerProfile.
Record t := {
  Type_ : string;
  Conditions : list ProfileCondition.t
}.
End ContainerProfile.

Module CodecProfile.
Record t := {
  Type_ : string;
  Codec : option string;
  Conditions : list ProfileCondition.t
}.
End CodecProfile.

Module SubtitleProfile.
Record t := {
  Format : string;
  Method : string
}.
End SubtitleProfile.

Module ResponseProfile.
Record t := {
  Type_ : string;
  Container : string;
  MimeType : string
}.
End ResponseProfile.

Record DeviceProfile := {
  MaxStreamingBitrate : Z;
  MaxStaticBitrate : Z;
  MusicStreamingTranscodingBitrate : Z;
  DirectPlayProfiles : list DirectPlayProfile.t;
  TranscodingProfiles : list TranscodingProfile.t;
  ContainerProfiles : list ContainerProfile.t;
  CodecProfiles : list CodecProfile.t;
  SubtitleProfiles : list SubtitleProfile.t;
  ResponseProfiles : list ResponseProfile.t
}.

(** [profile.X.push(items)] for each of the six lists. *)
Definition push_DirectPlayProfiles (p : DeviceProfile) (items : list DirectPlayProfile.t) :=
  {| MaxStreamingBitrate := MaxStreamingBitrate p;
     MaxStaticBitrate := MaxStaticBitrate p;
     MusicStreamingTranscodingBitrate := MusicStreamingTranscodingBitrate p;
     DirectPlayProfiles := JS.push (DirectPlayProfiles p) items;
     TranscodingProfiles := TranscodingProfiles p;
     ContainerProfiles := ContainerProfiles p;
     CodecProfiles := CodecProfiles p;
     SubtitleProfiles := SubtitleProfiles p;
     ResponseProfiles := ResponseProfiles p |}.

Definition push_TranscodingProfiles (p : DeviceProfile) (items : list TranscodingProfile.t) :=
  {| MaxStreamingBitrate := MaxStreamingBitrate p;
     MaxStaticBitrate := MaxStaticBitrate p;
     MusicStreamingTranscodingBitrate := MusicStreamingTranscodingBitrate p;
     DirectPlayProfiles := DirectPlayProfiles p;
     TranscodingProfiles := JS.push (TranscodingProfiles p) items;
     ContainerProfiles := ContainerProfiles p;
     CodecProfiles := CodecProfiles p;
     SubtitleProfiles := SubtitleProfiles p;
     ResponseProfiles := ResponseProfiles p |}.

Definition push_ContainerProfiles (p : DeviceProfile) (items : list ContainerProfile.t) :=
  {| MaxStreamingBitrate := MaxStreamingBitrate p;
     MaxStaticBitrate := MaxStaticBitrate p;
     MusicStreamingTranscodingBitrate := MusicStreamingTranscodingBitrate p;
     DirectPlayProfiles := DirectPlayProfiles p;
     TranscodingProfiles := TranscodingProfiles p;
     ContainerProfiles := JS.push (ContainerProfiles p) items;
     CodecProfiles := CodecProfiles p;
     SubtitleProfiles := SubtitleProfiles p;
     ResponseProfiles := ResponseProfiles p |}.

Definition push_CodecProfiles (p : DeviceProfile) (items : list CodecProfile.t) :=
  {| MaxStreamingBitrate := MaxStreamingBitrate p;
     MaxStaticBitrate := MaxStaticBitrate p;
     MusicStreamingTranscodingBitrate := MusicStreamingTranscodingBitrate p;
     DirectPlayProfiles := DirectPlayProfiles p;
     TranscodingProfiles := TranscodingProfiles p;
     ContainerProfiles := ContainerProfiles p;
     CodecProfiles := JS.push (CodecProfiles p) items;
     SubtitleProfiles := SubtitleProfiles p;
     ResponseProfiles := ResponseProfiles p |}.

Definition push_SubtitleProfiles (p : DeviceProfile) (items : list SubtitleProfile.t) :=
  {| MaxStreamingBitrate := MaxStreamingBitrate p;
     MaxStaticBitrate := MaxStaticBitrate p;
     MusicStreamingTranscodingBitrate := MusicStreamingTranscodingBitrate p;
     DirectPlayProfiles := DirectPlayProfiles p;
     TranscodingProfiles := TranscodingProfiles p;
     ContainerProfiles := ContainerProfiles p;
     CodecProfiles := CodecProfiles p;
     SubtitleProfiles := JS.push (SubtitleProfiles p) items;
     ResponseProfiles := ResponseProfiles p |}.

Definition push_ResponseProfiles (p : DeviceProfile) (items : list ResponseProfile.t) :=
  {| MaxStreamingBitrate := MaxStreamingBitrate p;
     MaxStaticBitrate := MaxStaticBitrate p;
     MusicStreamingTranscodingBitrate := MusicStreamingTranscodingBitrate p;
     DirectPlayProfiles := DirectPlayProfiles p;
     TranscodingProfiles := TranscodingProfiles p;
     ContainerProfiles := ContainerProfiles p;
     CodecProfiles := CodecProfiles p;
     SubtitleProfiles := SubtitleProfiles p;
     ResponseProfiles := JS.push (ResponseProfiles p) items |}.

(** The [options] bag of [getDeviceProfile]; the builder never reads it. *)
Definition Options : Type := list (string * string).

(** The bitrate condition pushed on the H.264, HEVC and AV1 rules. *)
Definition required_bitrate (limit : Z) : ProfileCondition.t :=
  {| ProfileCondition.Condition := "LessThanEqual";
     ProfileCondition.Property := "VideoBitrate";
     ProfileCondition.Value := JS.toString limit;
     ProfileCondition.IsRequired := Some true |}.

(** [if (globalMaxVideoBitrate) { conditions.push(required_bitrate) }] *)
Definition push_if_limited (globalMaxVideoBitrate : option Z)
    (conditions : list ProfileCondition.t) : list ProfileCondition.t :=
  match globalMaxVideoBitrate with
  | Some limit =>
      if JS.truthy_number limit
      then JS.push conditions [required_bitrate limit]
      else conditions
  | None => conditions
  end.

(* ================================================================== *)
(** ** [getDeviceProfile] *)
(* ================================================================== *)

Section Builder.

Variable env : Platform.

Definition video_rule (container videoCodec audioCodec : string) : DirectPlayProfile.t :=
  {| DirectPlayProfile.Container := container;
     DirectPlayProfile.Type_ := "Video";
     DirectPlayProfile.VideoCodec := Some videoCodec;
     DirectPlayProfile.AudioCodec := Some audioCodec |}.

Definition audio_rule (format : string) : DirectPlayProfile.t :=
  {| DirectPlayProfile.Container := format;
     DirectPlayProfile.Type_ := "Audio";
     DirectPlayProfile.VideoCodec := None;
     DirectPlayProfile.AudioCodec := None |}.

Definition advisory (condition property value : string) : ProfileCondition.t :=
  {| ProfileCondition.Condition := condition;
     ProfileCondition.Property := property;
     ProfileCondition.Value := value;
     ProfileCondition.IsRequired := Some false |}.

Definition audio_transcoding (format maxAudioChannels : string) : TranscodingProfile.t :=
  {| TranscodingProfile.Container := format;
     TranscodingProfile.Type_ := "Audio";
     TranscodingProfile.AudioCodec := format;
     TranscodingProfile.VideoCodec := None;
     TranscodingProfile.Context := "Streaming";
     TranscodingProfile.Protocol := "http";
     TranscodingProfile.MaxAudioChannels := maxAudioChannels;
     TranscodingProfile.MinSegments := None;
     TranscodingProfile.BreakOnNonKeyFrames := None |}.

Definition hls_transcoding (hlsContainer audioCodec videoCodec maxAudioChannels : string)
  : TranscodingProfile.t :=
  {| TranscodingProfile.Container := hlsContainer;
     TranscodingProfile.Type_ := "Video";
     TranscodingProfile.AudioCodec := audioCodec;
     TranscodingProfile.VideoCodec := Some videoCodec;
     TranscodingProfile.Context := "Streaming";
     TranscodingProfile.Protocol := "hls";
     TranscodingProfile.MaxAudioChannels := maxAudioChannels;
     TranscodingProfile.MinSegments := Some "1";
     TranscodingProfile.BreakOnNonKeyFrames := Some false |}.

Definition codec_rule (codec : string) (conditions : list ProfileCondition.t) : CodecProfile.t :=
  {| CodecProfile.Type_ := "Video";
     CodecProfile.Codec := Some codec;
     CodecProfile.Conditions := conditions |}.

(** The codec-less rule of "Global video conditions"; its condition
    carries no [IsRequired]. *)
Definition global_video_rule (limit : Z) : CodecProfile.t :=
  {| CodecProfile.Type_ := "Video";
     CodecProfile.Codec := None;
     CodecProfile.Conditions :=
       [{| ProfileCondition.Condition := "LessThanEqual";
           ProfileCondition.Property := "VideoBitrate";
           ProfileCondition.Value := JS.toString limit;
           ProfileCondition.IsRequired := None |}] |}.

Definition audio_channel_rule (channels : string) : CodecProfile.t :=
  {| CodecProfile.Type_ := "VideoAudio";
     CodecProfile.Codec := None;
     CodecProfile.Conditions := [advisory "LessThanEqual" "AudioChannels" channels] |}.

Definition stream_count_rule : ContainerProfile.t :=
  {| ContainerProfile.Type_ := "Video";
     ContainerProfile.Conditions := [advisory "LessThanEqual" "NumStreams" "32"] |}.

Definition subtitle (format method : string) : SubtitleProfile.t :=
  {| SubtitleProfile.Format := format; SubtitleProfile.Method := method |}.

Definition getDeviceProfile (options : option Options) : M DeviceProfile :=
  let options := match options with Some o => o | None => [] end in

  let tizenVersion := getTizenVersion env in
  let physicalAudioChannels := getPhysicalAudioChannels env in
  globalMaxVideoBitrate <- getGlobalMaxVideoBitrate env ;;

  let profile :=
    {| MaxStreamingBitrate := 120000000;
       MaxStaticBitrate := 100000000;
       MusicStreamingTranscodingBitrate := 384000;
       DirectPlayProfiles := [];
       TranscodingProfiles := [];
       ContainerProfiles := [];
       CodecProfiles := [];
       SubtitleProfiles := [];
       ResponseProfiles := [] |} in

  (* ---- Direct Play Profiles ---- *)
  let videoAudioCodecs := ["aac"; "mp3"] in

  ac3 <- supportsAc3 env ;;
  let videoAudioCodecs :=
    if ac3 then JS.push videoAudioCodecs ["ac3"] else videoAudioCodecs in
  eac3 <- supportsEac3 env ;;
  let videoAudioCodecs :=
    if eac3 then JS.push videoAudioCodecs ["eac3"] else videoAudioCodecs in
  dts <- canPlayDts env ;;
  let videoAudioCodecs :=
    if dts then JS.push videoAudioCodecs ["dca"; "dts"] else videoAudioCodecs in
  let videoAudioCodecs :=
    if isTizen env
    then JS.push videoAudioCodecs ["pcm_s16le"; "pcm_s24le"; "aac_latm"]
    else videoAudioCodecs in
  let videoAudioCodecs :=
    if canPlayAudioFormat env "opus"
    then JS.push videoAudioCodecs ["opus"] else videoAudioCodecs in
  let videoAudioCodecs :=
    if canPlayAudioFormat env "flac" && negb (isTizen env)
    then JS.push videoAudioCodecs ["flac"] else videoAudioCodecs in

  let mp4VideoCodecs : list string := [] in
  let mkvVideoCodecs : list string := [] in
  let hlsVideoCodecs : list string := [] in
  let hlsAudioCodecs := ["aac"; "mp3"] in

  h264 <- canPlayH264 env ;;
  let mp4VideoCodecs := if h264 then JS.push mp4VideoCodecs ["h264"] else mp4VideoCodecs in
  let mkvVideoCodecs := if h264 then JS.push mkvVideoCodecs ["h264"] else mkvVideoCodecs in
  let hlsVideoCodecs := if h264 then JS.push hlsVideoCodecs ["h264"] else hlsVideoCodecs in

  hevc <- canPlayHevc env ;;
  let mp4VideoCodecs := if hevc then JS.push mp4VideoCodecs ["hevc"] else mp4VideoCodecs in
  let mkvVideoCodecs := if hevc then JS.push mkvVideoCodecs ["hevc"] else mkvVideoCodecs in
  let hlsVideoCodecs :=
    if hevc
    then (if isTizen env then JS.push hlsVideoCodecs ["hevc"] else hlsVideoCodecs)
    else hlsVideoCodecs in

  av1 <- canPlayAv1 env ;;
  let mp4VideoCodecs := if av1 then JS.push mp4VideoCodecs ["av1"] else mp4VideoCodecs in
  let mkvVideoCodecs := if av1 then JS.push mkvVideoCodecs ["av1"] else mkvVideoCodecs in

  ac3 <- supportsAc3 env ;;
  let hlsAudioCodecs := if ac3 then JS.push hlsAudioCodecs ["ac3"] else hlsAudioCodecs in
  eac3 <- supportsEac3 env ;;
  let hlsAudioCodecs := if eac3 then JS.push hlsAudioCodecs ["eac3"] else hlsAudioCodecs in

  (* MP4 container *)
  let profile :=
    if JS.truthy_length mp4VideoCodecs
    then push_DirectPlayProfiles profile
           [video_rule "mp4,m4v" (JS.join mp4VideoCodecs ",") (JS.join videoAudioCodecs ",")]
    else profile in

  (* MKV container *)
  mkv <- canPlayMkv env ;;
  let profile :=
    if mkv && JS.truthy_length mkvVideoCodecs
    then push_DirectPlayProfiles profile
           [video_rule "mkv" (JS.join mkvVideoCodecs ",") (JS.join videoAudioCodecs ",")]
    else profile in

  (* TS container (Tizen only) *)
  ts_profile <-
    (if canPlayTs env then
       let tsVideoCodecs := ["h264"] in
       hevc <- canPlayHevc env ;;
       let tsVideoCodecs := if hevc then JS.push tsVideoCodecs ["hevc"] else tsVideoCodecs in
       ret (push_DirectPlayProfiles profile
              [video_rule "ts,mpegts" (JS.join tsVideoCodecs ",") (JS.join videoAudioCodecs ",")])
     else ret profile) ;;
  let profile := ts_profile in

  (* HLS direct play (for live TV primarily) *)
  hls <- canPlayHls env ;;
  let profile :=
    if hls && JS.truthy_length hlsVideoCodecs
    then push_DirectPlayProfiles profile
           [video_rule "hls" (JS.join hlsVideoCodecs ",") (JS.join hlsAudioCodecs ",")]
    else profile in

  (* Audio direct play *)
  let profile :=
    forEach ["mp3"; "aac"; "flac"; "wav"; "ogg"; "opus"]
      (fun format profile =>
         if canPlayAudioFormat env format
         then push_DirectPlayProfiles profile [audio_rule format]
         else profile)
      profile in

  (* ---- Transcoding Profiles ---- *)
  hls <- canPlayHls env ;;
  let profile :=
    if hls && JS.truthy_length hlsVideoCodecs then
      let hlsContainer := if canPlayNativeHlsInFmp4 env then "mp4" else "ts" in
      push_TranscodingProfiles profile
        [hls_transcoding hlsContainer (JS.join hlsAudioCodecs ",")
           (JS.join hlsVideoCodecs ",") (JS.toString physicalAudioChannels)]
    else profile in

  (* Audio transcoding *)
  let profile :=
    forEach ["aac"; "mp3"; "opus"; "wav"]
      (fun format profile =>
         if canPlayAudioFormat env format
         then push_TranscodingProfiles profile
                [audio_transcoding format (JS.toString physicalAudioChannels)]
         else profile)
      profile in

  (* ---- Container Profiles ---- *)
  let profile :=
    if JS.lt tizenVersion 6.5
    then push_ContainerProfiles profile [stream_count_rule]
    else profile in

  (* ---- Codec Profiles ---- *)
  maxH264Level <- getMaxH264Level env ;;
  maxHevcLevel <- getMaxHevcLevel env ;;
  hevcProfiles <- getHevcProfiles env ;;

  (* H.264 codec profile *)
  let h264Conditions :=
    [advisory "EqualsAny" "VideoProfile" "high|main|baseline|constrained baseline";
     advisory "EqualsAny" "VideoRangeType" "SDR";
     advisory "LessThanEqual" "VideoLevel" (JS.toString maxH264Level)] in
  let h264Conditions := push_if_limited globalMaxVideoBitrate h264Conditions in
  let profile :=
    push_CodecProfiles profile [codec_rule "h264" h264Conditions] in

  (* HEVC codec profile *)
  let hevcVideoRangeTypes := "SDR" in
  let hevcVideoRangeTypes :=
    if supportsHdr10 env
    then String.append hevcVideoRangeTypes "|HDR10|HDR10Plus" else hevcVideoRangeTypes in
  let hevcVideoRangeTypes :=
    if supportsHlg env
    then String.append hevcVideoRangeTypes "|HLG" else hevcVideoRangeTypes in
  let hevcVideoRangeTypes :=
    if JS.geq tizenVersion 3
    then String.append
           (String.append hevcVideoRangeTypes
              "|DOVIWithHDR10|DOVIWithHDR10Plus|DOVIWithSDR|DOVIWithHLG")
           "|DOVIWithEL|DOVIWithELHDR10Plus|DOVIInvalid"
    else hevcVideoRangeTypes in
  let hevcConditions :=
    [advisory "EqualsAny" "VideoProfile" hevcProfiles;
     advisory "EqualsAny" "VideoRangeType" hevcVideoRangeTypes;
     advisory "LessThanEqual" "VideoLevel" (JS.toString maxHevcLevel)] in
  let hevcConditions := push_if_limited globalMaxVideoBitrate hevcConditions in
  let profile :=
    push_CodecProfiles profile [codec_rule "hevc" hevcConditions] in

  (* AV1 codec profile (Tizen 5.5+ / 2021 TVs) *)
  av1 <- canPlayAv1 env ;;
  let profile :=
    if av1 then
      let av1VideoRangeTypes := "SDR" in
      let av1VideoRangeTypes :=
        if supportsHdr10 env
        then String.append av1VideoRangeTypes "|HDR10|HDR10Plus" else av1VideoRangeTypes in
      let av1VideoRangeTypes :=
        if supportsHlg env
        then String.append av1VideoRangeTypes "|HLG" else av1VideoRangeTypes in
      let av1VideoRangeTypes :=
        if JS.geq tizenVersion 3
        then String.append av1VideoRangeTypes
               "|DOVIWithHDR10|DOVIWithHDR10Plus|DOVIWithEL|DOVIWithELHDR10Plus|DOVIInvalid"
        else av1VideoRangeTypes in
      let av1Conditions :=
        [advisory "EqualsAny" "VideoProfile" "main";
         advisory "EqualsAny" "VideoRangeType" av1VideoRangeTypes;
         advisory "LessThanEqual" "VideoLevel" "15"] in
      let av1Conditions := push_if_limited globalMaxVideoBitrate av1Conditions in
      push_CodecProfiles profile [codec_rule "av1" av1Conditions]
    else profile in

  (* Global video conditions *)
  let profile :=
    match globalMaxVideoBitrate with
    | Some limit =>
        if JS.truthy_number limit
        then push_CodecProfiles profile [global_video_rule limit]
        else profile
    | None => profile
    end in

  (* Audio channel limit *)
  let profile :=
    push_CodecProfiles profile [audio_channel_rule (JS.toString physicalAudioChannels)] in

  (* ---- Subtitle Profiles ---- *)
  let profile := push_SubtitleProfiles profile [subtitle "vtt" "External"] in
  let profile := push_SubtitleProfiles profile [subtitle "srt" "External"] in
  let profile := push_SubtitleProfiles profile [subtitle "ass" "External"] in
  let profile := push_SubtitleProfiles profile [subtitle "ssa" "External"] in
  (* Burn in for complex formats *)
  let profile := push_SubtitleProfiles profile [subtitle "pgssub" "Encode"] in
  let profile := push_SubtitleProfiles profile [subtitle "dvdsub" "Encode"] in
  let profile := push_SubtitleProfiles profile [subtitle "dvbsub" "Encode"] in
  let profile := push_SubtitleProfiles profile [subtitle "sub" "Encode"] in

  (* ---- Response Profiles ---- *)
  let profile :=
    push_ResponseProfiles profile
      [{| ResponseProfile.Type_ := "Video";
          ResponseProfile.Container := "m4v";
          ResponseProfile.MimeType := "video/mp4" |}] in

  ret profile.

End Builder.


(* ================================================================== *)
(** ** The rest of the module's public functions *)
(* ================================================================== *)

Section Players.

Variable env : Platform.

(** [window.MediaSource != null && !canPlayNativeHls()] only asks the
    native question when Media Source Extensions are there. *)
Definition shouldUseHlsJs : M bool :=
  if isTizen env then ret false
  else if window_MediaSource env then
         native <- canPlayNativeHls env ;;
         if negb native then ret true else ret false
       else ret false.

End Players.

(** The argument of [getCrossOriginValue], as far as it is read. *)
Record MediaSourceInfo := { IsRemote : bool }.

(** [null] is [None]. *)
Definition getCrossOriginValue (mediaSource : option MediaSourceInfo) : option string :=
  match mediaSource with
  | Some m => if IsRemote m then None else Some "anonymous"
  | None => Some "anonymous"
  end.

(* ================================================================== *)
(** ** The details page: resolution badge and track buttons *)
(* ================================================================== *)

Module Details.

Definition getResolutionName (width height : Z) : string :=
  if (width >=? 3800) && (height >=? 2100) then "4K"
  else if (width >=? 2500) && (height >=? 1400) then "1440P"
  else if (width >=? 1900) && (height >=? 1000) then "1080P"
  else if (width >=? 1260) && (height >=? 700) then "720P"
  else if (width >=? 1000) && (height >=? 560) then "576P"
  else if (width >=? 850) && (height >=? 460) then "480P"
  else String.append (JS.toString height) "P".

(** An audio or subtitle stream of the playback info, and the "off"
    entry [{index: null}] of the subtitle button. *)
Record Stream := {
  index : option Z;
  displayTitle : option string
}.

Definition off : Stream := {| index := None; displayTitle := None |}.

(** [a === b] on values that are a number or [null]. *)
Definition strict_eq (a b : option Z) : bool :=
  match a, b with
  | Some x, Some y => x =? y
  | None, None => true
  | _, _ => false
  end.

(** [arr.findIndex(p)], with -1 for "not found". *)
Fixpoint findIndex_from {A : Type} (i : Z) (p : A -> bool) (arr : list A) : Z :=
  match arr with
  | [] => -1
  | x :: arr' => if p x then i else findIndex_from (i + 1) p arr'
  end.

Definition findIndex {A : Type} (p : A -> bool) (arr : list A) : Z :=
  findIndex_from 0 p arr.

(** [arr[i].index]; reading [.index] of [undefined] throws. *)
Definition index_at (arr : list Stream) (i : Z) : Completion (option Z) :=
  if i <? 0 then Throw "TypeError"
  else match nth_error arr (Z.to_nat i) with
       | Some s => Normal (index s)
       | None => Throw "TypeError"
       end.

(** The click handler of the audio button: the selection it passes to
    [handleAudioSelect]. *)
Definition nextAudio (audioStreams : list Stream) (selectedAudioIndex : option Z)
  : Completion (option Z) :=
  let currentIdx :=
    findIndex (fun s => strict_eq (index s) selectedAudioIndex) audioStreams in
  let nextIdx := (currentIdx + 1) mod Z.of_nat (List.length audioStreams) in
  index_at audioStreams nextIdx.

(** The click handler of the subtitle button. *)
Definition nextSubtitle (subtitleStreams : list Stream) (selectedSubtitleIndex : option Z)
  : Completion (option Z) :=
  let allOptions := off :: subtitleStreams in
  let currentIdx :=
    findIndex (fun s => strict_eq (index s) selectedSubtitleIndex) allOptions in
  let nextIdx := (currentIdx + 1) mod Z.of_nat (List.length allOptions) in
  index_at allOptions nextIdx.

End Details.

(* ================================================================== *)
(** ** Concrete platforms *)
(* ================================================================== *)

Module Examples.

(** An element that answers "probably" to the listed types and the empty
    string to every other one. *)
Definition element_playing (types : list string) : MediaElement :=
  {| canPlayType :=
       Some (fun t => if existsb (String.eqb t) types then "probably" else EmptyString) |}.

Definition h264_query : string := JS.codecs "video/mp4" "avc1.42E01E, mp4a.40.2".

Definition ac3_query : string := JS.codecs "audio/mp4" "ac-3".

Definition desktop_userAgent : string :=
  "Mozilla/5.0 (X11; Linux x86_64) AppleWebKit/537.36 (KHTML, like Gecko) Chrome/120.0 Safari/537.36".

(** A desktop browser without any of the probed codecs or containers. *)
Definition bare_browser : Platform :=
  {| tizen_defined := false;
     userAgent := desktop_userAgent;
     createElement := fun _ => element_playing [];
     window_MediaSource := false;
     webapis := None |}.

(** A desktop browser whose only positive answer is for baseline H.264. *)
Definition h264_only_browser : Platform :=
  {| tizen_defined := false;
     userAgent := desktop_userAgent;
     createElement := fun _ => element_playing [h264_query];
     window_MediaSource := false;
     webapis := None |}.

(** The same browser once it also answers for AC-3. *)
Definition h264_ac3_browser : Platform :=
  {| tizen_defined := false;
     userAgent := desktop_userAgent;
     createElement := fun _ => element_playing [h264_query; ac3_query];
     window_MediaSource := false;
     webapis := None |}.

(** A 2020 Samsung TV with a Full-HD panel, Tizen 5.5. *)
Definition tizen_5_5_fhd : Platform :=
  {| tizen_defined := true;
     userAgent :=
       "Mozilla/5.0 (SMART-TV; LINUX; Tizen 5.5) AppleWebKit/537.36 (KHTML, like Gecko) 69.0.3497.106.1/5.5 TV Safari/537.36";
     createElement := fun _ => element_playing [h264_query];
     window_MediaSource := true;
     webapis := Some {| productinfo := Some {| isUdPanelSupported := Normal false |} |} |}.

(** A 2017 TV, Tizen 3.0, whose panel query throws. *)
Definition tizen_3_0_throwing : Platform :=
  {| tizen_defined := true;
     userAgent :=
       "Mozilla/5.0 (SMART-TV; LINUX; Tizen 3.0) AppleWebKit/538.1 (KHTML, like Gecko) Version/3.0 TV Safari/538.1";
     createElement := fun _ => element_playing [h264_query];
     window_MediaSource := true;
     webapis := Some {| productinfo := Some {| isUdPanelSupported := Throw "SecurityError" |} |} |}.

(** A desktop browser that answers for baseline H.264 and E-AC-3. *)
Definition eac3_query : string := JS.codecs "audio/mp4" "ec-3".

Definition h264_eac3_browser : Platform :=
  {| tizen_defined := false;
     userAgent := desktop_userAgent;
     createElement := fun _ => element_playing [h264_query; eac3_query];
     window_MediaSource := false;
     webapis := None |}.

(** The same browser once it also answers for AC-3. *)
Definition h264_ac3_eac3_browser : Platform :=
  {| tizen_defined := false;
     userAgent := desktop_userAgent;
     createElement := fun _ => element_playing [h264_query; ac3_query; eac3_query];
     window_MediaSource := false;
     webapis := None |}.

(** A desktop browser with Media Source Extensions and baseline H.264. *)
Definition h264_mse_browser : Platform :=
  {| tizen_defined := false;
     userAgent := desktop_userAgent;
     createElement := fun _ => element_playing [h264_query];
     window_MediaSource := true;
     webapis := None |}.

(** A Tizen 5.5 TV whose media element answers no query. *)
Definition tizen_5_5_silent : Platform :=
  {| tizen_defined := true;
     userAgent :=
       "Mozilla/5.0 (SMART-TV; LINUX; Tizen 5.5) AppleWebKit/537.36 (KHTML, like Gecko) 69.0.3497.106.1/5.5 TV Safari/537.36";
     createElement := fun _ => element_playing [];
     window_MediaSource := true;
     webapis := None |}.

End Examples.

(* ================================================================== *)
(** ** What the probes can see of the module's variables *)
(* ================================================================== *)

Section Views.

Variable env : Platform.

(** The element that [getVideoTestElement] hands out from state [s]. *)
Definition video_of (s : Caches) : MediaElement :=
  match videoTestElement s with
  | Some v => v
  | None => createElement env "video"
  end.

(** The answer of [canPlayHls] from state [s]. *)
Definition hls_of (s : Caches) : bool :=
  match _canPlayHls s with
  | Some v => v
  | None => fst (canPlayNativeHls env s) || canPlayHlsWithMSE env
  end.

(** Two states the probes cannot tell apart. *)
Definition same_view (s s' : Caches) : Prop :=
  video_of s = video_of s' /\ hls_of s = hls_of s'.

(** A computation is [stable] when it leaves the view alone and its
    result depends on the state through the view only. *)
Definition stable {A : Type} (m : M A) : Prop :=
  (forall s, same_view (snd (m s)) s)
  /\ (forall s s', same_view s s' -> fst (m s) = fst (m s')).

End Views.

(* ================================================================== *)
(** ** The pure reading: capability facts and the assembler *)
(* ================================================================== *)

(** The results of the probes that one build consults. *)
Record Facts := {
  f_isTizen : bool;
  f_tizenVersion : Q;
  f_physicalAudioChannels : Z;
  f_globalMaxVideoBitrate : option Z;
  f_ac3 : bool;
  f_eac3 : bool;
  f_dts : bool;
  f_audioFormat : string -> bool;
  f_h264 : bool;
  f_hevc : bool;
  f_av1 : bool;
  f_mkv : bool;
  f_ts : bool;
  f_hls : bool;
  f_fmp4 : bool;
  f_hdr10 : bool;
  f_hlg : bool;
  f_maxH264Level : Z;
  f_maxHevcLevel : Z;
  f_hevcProfiles : string
}.

(** The facts as probed on platform [env] from state [s]. *)
Definition facts (env : Platform) (s : Caches) : Facts :=
  {| f_isTizen := isTizen env;
     f_tizenVersion := getTizenVersion env;
     f_physicalAudioChannels := getPhysicalAudioChannels env;
     f_globalMaxVideoBitrate := fst (getGlobalMaxVideoBitrate env s);
     f_ac3 := fst (supportsAc3 env s);
     f_eac3 := fst (supportsEac3 env s);
     f_dts := fst (canPlayDts env s);
     f_audioFormat := canPlayAudioFormat env;
     f_h264 := fst (canPlayH264 env s);
     f_hevc := fst (canPlayHevc env s);
     f_av1 := fst (canPlayAv1 env s);
     f_mkv := fst (canPlayMkv env s);
     f_ts := canPlayTs env;
     f_hls := fst (canPlayHls env s);
     f_fmp4 := canPlayNativeHlsInFmp4 env;
     f_hdr10 := supportsHdr10 env;
     f_hlg := supportsHlg env;
     f_maxH264Level := fst (getMaxH264Level env s);
     f_maxHevcLevel := fst (getMaxHevcLevel env s);
     f_hevcProfiles := fst (getHevcProfiles env s) |}.

(** [opt c l]: the entries [l] when [c] holds, nothing otherwise. *)
Definition opt {A : Type} (c : bool) (l : list A) : list A := if c then l else [].

(** The codec-less bitrate rule, present when there is a ceiling. *)
Definition global_rules (g : option Z) : list CodecProfile.t :=
  match g with
  | Some limit => opt (JS.truthy_number limit) [global_video_rule limit]
  | None => []
  end.

Section Assembler.

Variable F : Facts.

Definition videoAudioCodecs_of : list string :=
  ["aac"; "mp3"]
  ++ opt (f_ac3 F) ["ac3"]
  ++ opt (f_eac3 F) ["eac3"]
  ++ opt (f_dts F) ["dca"; "dts"]
  ++ opt (f_isTizen F) ["pcm_s16le"; "pcm_s24le"; "aac_latm"]
  ++ opt (f_audioFormat F "opus") ["opus"]
  ++ opt (f_audioFormat F "flac" && negb (f_isTizen F)) ["flac"].

Definition mp4VideoCodecs_of : list string :=
  opt (f_h264 F) ["h264"] ++ opt (f_hevc F) ["hevc"] ++ opt (f_av1 F) ["av1"].

Definition mkvVideoCodecs_of : list string :=
  opt (f_h264 F) ["h264"] ++ opt (f_hevc F) ["hevc"] ++ opt (f_av1 F) ["av1"].

Definition hlsVideoCodecs_of : list string :=
  opt (f_h264 F) ["h264"] ++ opt (f_hevc F) (opt (f_isTizen F) ["hevc"]).

Definition tsVideoCodecs_of : list string :=
  ["h264"] ++ opt (f_hevc F) ["hevc"].

Definition hlsAudioCodecs_of : list string :=
  ["aac"; "mp3"] ++ opt (f_ac3 F) ["ac3"] ++ opt (f_eac3 F) ["eac3"].

Definition directPlayProfiles_of : list DirectPlayProfile.t :=
  opt (JS.truthy_length mp4VideoCodecs_of)
    [video_rule "mp4,m4v" (JS.join mp4VideoCodecs_of ",") (JS.join videoAudioCodecs_of ",")]
  ++ opt (f_mkv F && JS.truthy_length mkvVideoCodecs_of)
       [video_rule "mkv" (JS.join mkvVideoCodecs_of ",") (JS.join videoAudioCodecs_of ",")]
  ++ opt (f_ts F)
       [video_rule "ts,mpegts" (JS.join tsVideoCodecs_of ",") (JS.join videoAudioCodecs_of ",")]
  ++ opt (f_hls F && JS.truthy_length hlsVideoCodecs_of)
       [video_rule "hls" (JS.join hlsVideoCodecs_of ",") (JS.join hlsAudioCodecs_of ",")]
  ++ flat_map (fun format => opt (f_audioFormat F format) [audio_rule format])
       ["mp3"; "aac"; "flac"; "wav"; "ogg"; "opus"].

Definition transcodingProfiles_of : list TranscodingProfile.t :=
  opt (f_hls F && JS.truthy_length hlsVideoCodecs_of)
    [hls_transcoding (if f_fmp4 F then "mp4" else "ts")
       (JS.join hlsAudioCodecs_of ",") (JS.join hlsVideoCodecs_of ",")
       (JS.toString (f_physicalAudioChannels F))]
  ++ flat_map
       (fun format =>
          opt (f_audioFormat F format)
            [audio_transcoding format (JS.toString (f_physicalAudioChannels F))])
       ["aac"; "mp3"; "opus"; "wav"].

Definition containerProfiles_of : list ContainerProfile.t :=
  opt (JS.lt (f_tizenVersion F) 6.5) [stream_count_rule].

(** The range types shared by the HEVC and the AV1 rule, before the
    Dolby Vision fallbacks. *)
Definition baseRangeTypes_of : string :=
  let t := "SDR" in
  let t := if f_hdr10 F then String.append t "|HDR10|HDR10Plus" else t in
  if f_hlg F then String.append t "|HLG" else t.

Definition hevcVideoRangeTypes_of : string :=
  if JS.geq (f_tizenVersion F) 3
  then String.append
         (String.append baseRangeTypes_of
            "|DOVIWithHDR10|DOVIWithHDR10Plus|DOVIWithSDR|DOVIWithHLG")
         "|DOVIWithEL|DOVIWithELHDR10Plus|DOVIInvalid"
  else baseRangeTypes_of.

Definition av1VideoRangeTypes_of : string :=
  if JS.geq (f_tizenVersion F) 3
  then String.append baseRangeTypes_of
         "|DOVIWithHDR10|DOVIWithHDR10Plus|DOVIWithEL|DOVIWithELHDR10Plus|DOVIInvalid"
  else baseRangeTypes_of.

Definition h264Rule_of : CodecProfile.t :=
  codec_rule "h264"
    (push_if_limited (f_globalMaxVideoBitrate F)
       [advisory "EqualsAny" "VideoProfile" "high|main|baseline|constrained baseline";
        advisory "EqualsAny" "VideoRangeType" "SDR";
        advisory "LessThanEqual" "VideoLevel" (JS.toString (f_maxH264Level F))]).

Definition hevcRule_of : CodecProfile.t :=
  codec_rule "hevc"
    (push_if_limited (f_globalMaxVideoBitrate F)
       [advisory "EqualsAny" "VideoProfile" (f_hevcProfiles F);
        advisory "EqualsAny" "VideoRangeType" hevcVideoRangeTypes_of;
        advisory "LessThanEqual" "VideoLevel" (JS.toString (f_maxHevcLevel F))]).

Definition av1Rule_of : CodecProfile.t :=
  codec_rule "av1"
    (push_if_limited (f_globalMaxVideoBitrate F)
       [advisory "EqualsAny" "VideoProfile" "main";
        advisory "EqualsAny" "VideoRangeType" av1VideoRangeTypes_of;
        advisory "LessThanEqual" "VideoLevel" "15"]).

Definition globalRule_of : list CodecProfile.t :=
  global_rules (f_globalMaxVideoBitrate F).

Definition codecProfiles_of : list CodecProfile.t :=
  [h264Rule_of; hevcRule_of]
  ++ opt (f_av1 F) [av1Rule_of]
  ++ globalRule_of
  ++ [audio_channel_rule (JS.toString (f_physicalAudioChannels F))].

Definition subtitleProfiles_of : list SubtitleProfile.t :=
  [subtitle "vtt" "External"; subtitle "srt" "External";
   subtitle "ass" "External"; subtitle "ssa" "External";
   subtitle "pgssub" "Encode"; subtitle "dvdsub" "Encode";
   subtitle "dvbsub" "Encode"; subtitle "sub" "Encode"].

Definition responseProfiles_of : list ResponseProfile.t :=
  [{| ResponseProfile.Type_ := "Video";
      ResponseProfile.Container := "m4v";
      ResponseProfile.MimeType := "video/mp4" |}].

(** The document as a function of the facts. *)
Definition assemble : DeviceProfile :=
  {| MaxStreamingBitrate := 120000000;
     MaxStaticBitrate := 100000000;
     MusicStreamingTranscodingBitrate := 384000;
     DirectPlayProfiles := directPlayProfiles_of;
     TranscodingProfiles := transcodingProfiles_of;
     ContainerProfiles := containerProfiles_of;
     CodecProfiles := codecProfiles_of;
     SubtitleProfiles := subtitleProfiles_of;
     ResponseProfiles := responseProfiles_of |}.

End Assembler.

(* ================================================================== *)
(** ** Reading a document *)
(* ================================================================== *)

(** [s.split(sep)] for a one-character separator: how the server takes
    a comma-joined codec list or a [|]-delimited value apart. *)
Fixpoint split (sep : ascii) (s : string) : list string :=
  match s with
  | EmptyString => [EmptyString]
  | String c s' =>
      if Ascii.eqb c sep then EmptyString :: split sep s'
      else match split sep s' with
           | piece :: pieces => String c piece :: pieces
           | [] => [String c EmptyString]
           end
  end.

Definition codec_list (joined : string) : list string := split "," joined.

Definition range_types (value : string) : list string := split "|" value.

(** [sep] does not occur in [s]. *)
Fixpoint free_of (sep : ascii) (s : string) : bool :=
  match s with
  | EmptyString => true
  | String c s' => negb (Ascii.eqb c sep) && free_of sep s'
  end.

Definition is_video (r : DirectPlayProfile.t) : bool :=
  String.eqb (DirectPlayProfile.Type_ r) "Video".

Definition rule_for (codec : string) (r : CodecProfile.t) : bool :=
  match CodecProfile.Codec r with
  | Some c => String.eqb c codec
  | None => false
  end.

(** The codec rules of a document that name [codec]. *)
Definition codec_rules (codec : string) (p : DeviceProfile) : list CodecProfile.t :=
  filter (rule_for codec) (CodecProfiles p).

Definition on_property (property : string) (c : ProfileCondition.t) : bool :=
  String.eqb (ProfileCondition.Property c) property.

(** The conditions of a rule on a given property, and the value of the
    first of them. *)
Definition conditions_on (property : string) (r : CodecProfile.t)
  : list ProfileCondition.t :=
  filter (on_property property) (CodecProfile.Conditions r).

Definition condition_value (property : string) (r : CodecProfile.t) : option string :=
  match conditions_on property r with
  | c :: _ => Some (ProfileCondition.Value c)
  | [] => None
  end.

(** The Dolby Vision fallback range types. *)
Definition dovi_family : list string :=
  ["DOVIWithHDR10"; "DOVIWithHDR10Plus"; "DOVIWithSDR"; "DOVIWithHLG";
   "DOVIWithEL"; "DOVIWithELHDR10Plus"; "DOVIInvalid"].

Definition is_dovi (rangeType : string) : bool := prefix "DOVI" rangeType.

Definition mem (x : string) (l : list string) : bool := existsb (String.eqb x) l.

(** [Subseq l l']: [l'] is [l] with entries added, order kept. *)
Inductive Subseq {A : Type} : list A -> list A -> Prop :=
| Subseq_nil : Subseq [] []
| Subseq_keep x l l' : Subseq l l' -> Subseq (x :: l) (x :: l')
| Subseq_add x l l' : Subseq l l' -> Subseq l (x :: l').

(** The panel query gives no answer: [webapis] or [webapis.productinfo]
    is missing, or [isUdPanelSupported] throws. *)
Definition panel_unknown (env : Platform) : Prop :=
  match webapis env with
  | None => True
  | Some w =>
      match productinfo w with
      | None => True
      | Some info => exists e, isUdPanelSupported info = Throw e
      end
  end.

(** The panel is confirmed below 4K on a Tizen platform. *)
Definition panel_confirmed_fhd (env : Platform) : Prop :=
  isTizen env = true
  /\ exists w info,
       webapis env = Some w /\ productinfo w = Some info
       /\ isUdPanelSupported info = Normal false.


(** *** Enabling audio codecs *)

(** [F'] agrees with [F] on everything but the audio codec facts. *)
Definition same_but_audio (F F' : Facts) : Prop :=
  f_isTizen F' = f_isTizen F
  /\ f_tizenVersion F' = f_tizenVersion F
  /\ f_physicalAudioChannels F' = f_physicalAudioChannels F
  /\ f_globalMaxVideoBitrate F' = f_globalMaxVideoBitrate F
  /\ f_h264 F' = f_h264 F
  /\ f_hevc F' = f_hevc F
  /\ f_av1 F' = f_av1 F
  /\ f_mkv F' = f_mkv F
  /\ f_ts F' = f_ts F
  /\ f_hls F' = f_hls F
  /\ f_fmp4 F' = f_fmp4 F
  /\ f_hdr10 F' = f_hdr10 F
  /\ f_hlg F' = f_hlg F
  /\ f_maxH264Level F' = f_maxH264Level F
  /\ f_maxHevcLevel F' = f_maxHevcLevel F
  /\ f_hevcProfiles F' = f_hevcProfiles F.

(** Every audio codec fact that holds in [F] holds in [F']; a single
    fact flipped from unsupported to supported is the special case. *)
Definition audio_enabled (F F' : Facts) : Prop :=
  (f_ac3 F = true -> f_ac3 F' = true)
  /\ (f_eac3 F = true -> f_eac3 F' = true)
  /\ (f_dts F = true -> f_dts F' = true)
  /\ (forall format, f_audioFormat F format = true -> f_audioFormat F' format = true).

(** [r'] is [r] with audio codecs added to its list. *)
Definition rule_grows (r r' : DirectPlayProfile.t) : Prop :=
  DirectPlayProfile.Container r' = DirectPlayProfile.Container r
  /\ DirectPlayProfile.Type_ r' = DirectPlayProfile.Type_ r
  /\ DirectPlayProfile.VideoCodec r' = DirectPlayProfile.VideoCodec r
  /\ match DirectPlayProfile.AudioCodec r, DirectPlayProfile.AudioCodec r' with
     | Some a, Some a' => Subseq (codec_list a) (codec_list a')
     | None, None => True
     | _, _ => False
     end.

Definition transcoding_grows (t t' : TranscodingProfile.t) : Prop :=
  TranscodingProfile.Container t' = TranscodingProfile.Container t
  /\ TranscodingProfile.Type_ t' = TranscodingProfile.Type_ t
  /\ TranscodingProfile.VideoCodec t' = TranscodingProfile.VideoCodec t
  /\ TranscodingProfile.Context t' = TranscodingProfile.Context t
  /\ TranscodingProfile.Protocol t' = TranscodingProfile.Protocol t
  /\ TranscodingProfile.MaxAudioChannels t' = TranscodingProfile.MaxAudioChannels t
  /\ TranscodingProfile.MinSegments t' = TranscodingProfile.MinSegments t
  /\ TranscodingProfile.BreakOnNonKeyFrames t' = TranscodingProfile.BreakOnNonKeyFrames t
  /\ Subseq (codec_list (TranscodingProfile.AudioCodec t))
       (codec_list (TranscodingProfile.AudioCodec t')).

(** *** The statements that the code does not satisfy as they stand *)

(** The playability fact behind a video codec name. *)
Definition video_fact (F : Facts) (codec : string) : bool :=
  if String.eqb codec "h264" then f_h264 F
  else if String.eqb codec "hevc" then f_hevc F
  else if String.eqb codec "av1" then f_av1 F
  else false.

(** "When no video codec is supported there is no video direct-play rule,
    and no codec rule is emitted for a codec whose fact is false." *)
Definition rules_only_for_supported (F : Facts) (p : DeviceProfile) : Prop :=
  (f_h264 F = false -> f_hevc F = false -> f_av1 F = false ->
   filter is_video (DirectPlayProfiles p) = [])
  /\ (forall codec, In codec ["h264"; "hevc"; "av1"] ->
        video_fact F codec = false -> codec_rules codec p = []).

(** The platform of the H.264-only scenario, by its facts: not Tizen, the
    baseline H.264 query succeeds and every other query fails. *)
Definition h264_only_scenario (env : Platform) (s : Caches) : Prop :=
  isTizen env = false
  /\ fst (canPlayH264 env s) = true
  /\ fst (canPlayHevc env s) = false
  /\ fst (canPlayAv1 env s) = false
  /\ fst (supportsAc3 env s) = false
  /\ fst (supportsEac3 env s) = false
  /\ fst (canPlayDts env s) = false
  /\ fst (canPlayMkv env s) = false
  /\ fst (canPlayHls env s) = false
  /\ (forall format, canPlayAudioFormat env format = false)
  /\ fst (getMaxH264Level env s) = 42
  /\ fst (getMaxHevcLevel env s) = 120
  /\ fst (getHevcProfiles env s) = "main".

(** "Exactly one direct-play rule; exactly one codec rule, for h264 with
    level 42 and range type SDR; no HEVC or AV1 codec rule; no TS rule;
    no bitrate condition." *)
Definition h264_only_document_as_stated (p : DeviceProfile) : Prop :=
  DirectPlayProfiles p = [video_rule "mp4,m4v" "h264" "aac,mp3"]
  /\ (exists r,
        CodecProfiles p = [r]
        /\ CodecProfile.Codec r = Some "h264"
        /\ condition_value "VideoLevel" r = Some "42"
        /\ condition_value "VideoRangeType" r = Some "SDR")
  /\ codec_rules "hevc" p = []
  /\ codec_rules "av1" p = []
  /\ Forall (fun r => conditions_on "VideoBitrate" r = []) (CodecProfiles p).

(** The three codec rules the builder emits in that scenario. *)
Definition h264_only_codec_rules : list CodecProfile.t :=
  [codec_rule "h264"
     [advisory "EqualsAny" "VideoProfile" "high|main|baseline|constrained baseline";
      advisory "EqualsAny" "VideoRangeType" "SDR";
      advisory "LessThanEqual" "VideoLevel" "42"];
   codec_rule "hevc"
     [advisory "EqualsAny" "VideoProfile" "main";
      advisory "EqualsAny" "VideoRangeType" "SDR";
      advisory "LessThanEqual" "VideoLevel" "120"];
   audio_channel_rule "2"].

(** "The AV1 rule has the range types of the HEVC rule." *)
Definition av1_mirrors_hevc (p : DeviceProfile) : Prop :=
  exists ra rh va vh,
    codec_rules "av1" p = [ra]
    /\ codec_rules "hevc" p = [rh]
    /\ condition_value "VideoRangeType" ra = Some va
    /\ condition_value "VideoRangeType" rh = Some vh
    /\ forall t, mem t (range_types va) = mem t (range_types vh).

(** The two fallbacks the AV1 rule leaves out. *)
Definition not_for_av1 (rangeType : string) : bool :=
  mem rangeType ["DOVIWithSDR"; "DOVIWithHLG"].

(** *** Rules and the facts behind them *)

(** The audio codecs every codec list starts from; the builder consults
    no probe for them. *)
Definition baseline_audio : list string := ["aac"; "mp3"].

(** The fact the builder tests before it lists an audio codec. *)
Definition audio_fact (F : Facts) (codec : string) : bool :=
  if String.eqb codec "ac3" then f_ac3 F
  else if String.eqb codec "eac3" then f_eac3 F
  else if mem codec ["dca"; "dts"] then f_dts F
  else if mem codec ["pcm_s16le"; "pcm_s24le"; "aac_latm"] then f_isTizen F
  else if String.eqb codec "opus" then f_audioFormat F "opus"
  else if String.eqb codec "flac" then f_audioFormat F "flac"
  else false.

(** The fact the builder tests before it offers a video container; the
    MP4 rule has none, it depends on the codec list only. *)
Definition container_fact (F : Facts) (container : string) : bool :=
  if String.eqb container "mkv" then f_mkv F
  else if String.eqb container "ts,mpegts" then f_ts F
  else if String.eqb container "hls" then f_hls F
  else false.

(** A direct-play rule lists only what the facts allow.  A video rule:
    its container is MP4 or has a true fact, every video codec has a
    true fact - but for h264 in the TS rule -, every audio codec is a
    baseline codec or has a true fact.  An audio rule: the format of its
    container has a true fact. *)
Definition direct_play_backed (F : Facts) (r : DirectPlayProfile.t) : Prop :=
  match DirectPlayProfile.VideoCodec r, DirectPlayProfile.AudioCodec r with
  | Some videoCodec, Some audioCodec =>
      DirectPlayProfile.Type_ r = "Video"
      /\ (DirectPlayProfile.Container r = "mp4,m4v"
          \/ container_fact F (DirectPlayProfile.Container r) = true)
      /\ (forall codec, In codec (codec_list videoCodec) ->
            video_fact F codec = true
            \/ (DirectPlayProfile.Container r = "ts,mpegts" /\ codec = "h264"))
      /\ (forall codec, In codec (codec_list audioCodec) ->
            In codec baseline_audio \/ audio_fact F codec = true)
  | None, None =>
      DirectPlayProfile.Type_ r = "Audio"
      /\ f_audioFormat F (DirectPlayProfile.Container r) = true
  | _, _ => False
  end.

(** A transcoding rule lists only what the facts allow.  The HLS rule:
    HLS is playable, the segment container is the one the fMP4 fact
    selects, every video codec has a true fact, every audio codec is a
    baseline codec or has a true fact.  An audio rule: container and
    codec are one format, which has a true fact. *)
Definition transcoding_backed (F : Facts) (t : TranscodingProfile.t) : Prop :=
  match TranscodingProfile.VideoCodec t with
  | Some videoCodec =>
      TranscodingProfile.Type_ t = "Video"
      /\ TranscodingProfile.Protocol t = "hls"
      /\ f_hls F = true
      /\ TranscodingProfile.Container t = (if f_fmp4 F then "mp4" else "ts")
      /\ (forall codec, In codec (codec_list videoCodec) -> video_fact F codec = true)
      /\ (forall codec, In codec (codec_list (TranscodingProfile.AudioCodec t)) ->
            In codec baseline_audio \/ audio_fact F codec = true)
  | None =>
      TranscodingProfile.Type_ t = "Audio"
      /\ TranscodingProfile.AudioCodec t = TranscodingProfile.Container t
      /\ f_audioFormat F (TranscodingProfile.Container t) = true
  end.

Definition is_video_transcoding (t : TranscodingProfile.t) : bool :=
  String.eqb (TranscodingProfile.Type_ t) "Video".

(** *** Appending, as opposed to adding *)

(** [l'] is [l] with entries put at its end. *)
Definition appended {A : Type} (l l' : list A) : Prop := exists more, l' = l ++ more.

(** Only the AC-3 fact differs: unsupported in [F], supported in [F']. *)
Definition ac3_flipped_on (F F' : Facts) : Prop :=
  same_but_audio F F'
  /\ f_ac3 F = false /\ f_ac3 F' = true
  /\ f_eac3 F' = f_eac3 F
  /\ f_dts F' = f_dts F
  /\ forall format, f_audioFormat F' format = f_audioFormat F format.

(** [r'] is [r] with audio codecs put at the end of its list. *)
Definition rule_appended (r r' : DirectPlayProfile.t) : Prop :=
  DirectPlayProfile.Container r' = DirectPlayProfile.Container r
  /\ DirectPlayProfile.Type_ r' = DirectPlayProfile.Type_ r
  /\ DirectPlayProfile.VideoCodec r' = DirectPlayProfile.VideoCodec r
  /\ match DirectPlayProfile.AudioCodec r, DirectPlayProfile.AudioCodec r' with
     | Some a, Some a' => appended (codec_list a) (codec_list a')
     | None, None => True
     | _, _ => False
     end.

(** "Flipping one audio codec fact on removes no direct-play rule and
    only appends to its codec lists." *)
Definition audio_flip_only_appends (p p' : DeviceProfile) : Prop :=
  forall r, In r (DirectPlayProfiles p) ->
    exists r', In r' (DirectPlayProfiles p') /\ rule_appended r r'.

(* ================================================================== *)
(** ** Further notions for the properties of the probes and the page *)
(* ================================================================== *)

(** The line a build logs: one when the panel query throws on Tizen. *)
Definition panel_log (env : Platform) : list string :=
  if isTizen env then
    match panel_limit env with
    | Throw e =>
        [String.append "[BrowserDeviceProfile] Could not detect panel type:"
           (String.append " " e)]
    | Normal _ => []
    end
  else [].

(** A computation that logs nothing and empties no cache. *)
Definition quiet {A : Type} (m : M A) : Prop :=
  forall s,
    console (snd (m s)) = console s
    /\ (videoTestElement s <> None -> videoTestElement (snd (m s)) <> None)
    /\ (_canPlayHls s <> None -> _canPlayHls (snd (m s)) <> None).

(** A computation that adds the lines [l] to the console. *)
Definition logs {A : Type} (l : list string) (m : M A) : Prop :=
  forall s, console (snd (m s)) = console s ++ l.

(** A computation after which the video element is cached; one after
    which the HLS answer is. *)
Definition sets_video {A : Type} (m : M A) : Prop :=
  forall s, videoTestElement (snd (m s)) <> None.

Definition sets_hls {A : Type} (m : M A) : Prop :=
  forall s, _canPlayHls (snd (m s)) <> None.

(** Selecting rules of a document. *)
Definition in_container (container : string) (r : DirectPlayProfile.t) : bool :=
  String.eqb (DirectPlayProfile.Container r) container.

Definition over_hls (t : TranscodingProfile.t) : bool :=
  String.eqb (TranscodingProfile.Protocol t) "hls".

Definition is_audio_transcoding (t : TranscodingProfile.t) : bool :=
  String.eqb (TranscodingProfile.Type_ t) "Audio".

Definition codecless_video (r : CodecProfile.t) : bool :=
  String.eqb (CodecProfile.Type_ r) "Video"
  && match CodecProfile.Codec r with None => true | Some _ => false end.

(** The codec names the builder can write into a rule. *)
Definition video_codec_names : list string := ["h264"; "hevc"; "av1"].

Definition audio_codec_names : list string :=
  ["aac"; "mp3"; "ac3"; "eac3"; "dca"; "dts";
   "pcm_s16le"; "pcm_s24le"; "aac_latm"; "opus"; "flac"].

(** The format names [canPlayAudioFormat] has a MIME type for. *)
Definition known_audio_formats : list string :=
  ["opus"; "webma"; "mp3"; "aac"; "flac"; "wav"; "ogg"].

(** The order of the resolution classes of the details page; a label
    outside the six classes ranks lowest. *)
Definition resolution_rank (name : string) : nat :=
  if String.eqb name "4K" then 6
  else if String.eqb name "1440P" then 5
  else if String.eqb name "1080P" then 4
  else if String.eqb name "720P" then 3
  else if String.eqb name "576P" then 2
  else if String.eqb name "480P" then 1
  else 0.

(** Pressing a track button [n] times, starting from [selected]; an
    exception stops the sequence. *)
Fixpoint press (next : option Z -> Completion (option Z)) (n : nat) (selected : option Z)
  : Completion (option Z) :=
  match n with
  | O => Normal selected
  | S n' =>
      match next selected with
      | Normal selected' => press next n' selected'
      | Throw e => Throw e
      end
  end.

(** The codec rule that is scoped to the audio track of a video. *)
Definition on_audio_track (r : CodecProfile.t) : bool :=
  String.eqb (CodecProfile.Type_ r) "VideoAudio".

(** What both click handlers compute, on the list of their options. *)
Definition next_option (options : list Details.Stream) (selected : option Z)
  : Completion (option Z) :=
  Details.index_at options
    ((Details.findIndex
        (fun s => Details.strict_eq (Details.index s) selected) options + 1)
     mod Z.of_nat (List.length options)).

(* ================================================================== *)
(** ** The primitives on examples *)
(* ================================================================== *)

Example version_of_tizen_5_5 : getTizenVersion Examples.tizen_5_5_fhd = 5.5%Q.
Proof. reflexivity. Qed.

Example version_by_user_agent_only :
  getTizenVersion
    {| tizen_defined := false;
       userAgent := "Mozilla/5.0 (SMART-TV; LINUX; TIZEN   6.12) tizen 2.4";
       createElement := fun _ => Examples.element_playing [];
       window_MediaSource := false;
       webapis := None |} = 7.2%Q.
Proof. reflexivity. Qed.

Example version_default :
  getTizenVersion
    {| tizen_defined := true;
       userAgent := "Mozilla/5.0 (SMART-TV; LINUX)";
       createElement := fun _ => Examples.element_playing [];
       window_MediaSource := false;
       webapis := None |} = 4.0%Q.
Proof. reflexivity. Qed.

Example desktop_is_not_tizen : isTizen Examples.h264_only_browser = false.
Proof. reflexivity. Qed.

Example replace_no_examples :
  JS.replace_no "no" = EmptyString
  /\ JS.replace_no "maybe" = "maybe"
  /\ JS.replace_no "nonono" = "nono".
Proof. repeat split. Qed.

Example codec_list_example : codec_list "aac,mp3,ac3" = ["aac"; "mp3"; "ac3"].
Proof. reflexivity. Qed.

Example audio_channels_printed : JS.toString 6 = "6" /\ JS.toString 20000000 = "20000000".
Proof. split; reflexivity. Qed.

(** The build on a Tizen 3.0 TV whose panel query throws: one line is
    logged, both caches are filled. *)
Example throwing_panel_is_logged :
  snd (getDeviceProfile Examples.tizen_3_0_throwing None fresh)
  = {| _canPlayHls := Some true;
       videoTestElement := Some (Examples.element_playing [Examples.h264_query]);
       console := ["[BrowserDeviceProfile] Could not detect panel type: SecurityError"] |}.
Proof. reflexivity. Qed.

(* ================================================================== *)
(** ** Stability of the probes *)
(* ================================================================== *)

Section Stability.

Variable env : Platform.

Lemma same_view_refl s : same_view env s s.
Proof. split; reflexivity. Qed.

Lemma same_view_sym s s' : same_view env s s' -> same_view env s' s.
Proof. intros [H1 H2]; split; congruence. Qed.

Lemma same_view_trans s1 s2 s3 :
  same_view env s1 s2 -> same_view env s2 s3 -> same_view env s1 s3.
Proof. intros [H1 H2] [H3 H4]; split; congruence. Qed.

Lemma bind_run {A B : Type} (m : M A) (k : A -> M B) s :
  bind m k s = k (fst (m s)) (snd (m s)).
Proof. unfold bind. destruct (m s); reflexivity. Qed.

Lemma stable_ret {A : Type} (a : A) : stable env (ret a).
Proof. split; intros; [apply same_view_refl | reflexivity]. Qed.

Lemma stable_bind {A B : Type} (m : M A) (k : A -> M B) :
  stable env m -> (forall a, stable env (k a)) -> stable env (bind m k).
Proof.
  intros [Hm1 Hm2] Hk. split.
  - intros s. rewrite bind_run.
    eapply same_view_trans; [apply (Hk (fst (m s))) | apply Hm1].
  - intros s s' Hv. rewrite !bind_run, (Hm2 s s' Hv).
    apply (Hk (fst (m s'))).
    eapply same_view_trans; [apply Hm1 |].
    eapply same_view_trans; [exact Hv | apply same_view_sym, Hm1].
Qed.

Lemma stable_if {A : Type} (c : bool) (m1 m2 : M A) :
  stable env m1 -> stable env m2 -> stable env (if c then m1 else m2).
Proof. destruct c; auto. Qed.

(** The native-HLS answer reads the state through the video element only. *)
Lemma canPlayNativeHls_video s s' :
  video_of env s = video_of env s' ->
  fst (canPlayNativeHls env s) = fst (canPlayNativeHls env s').
Proof.
  unfold canPlayNativeHls, video_of, bind, getVideoTestElement, ret.
  destruct (isTizen env); [reflexivity |].
  destruct (videoTestElement s), (videoTestElement s'); cbn; intros E;
    try rewrite E; reflexivity.
Qed.

(** A step that keeps the memo and the element it would hand out keeps
    the view. *)
Lemma same_view_intro s s' :
  video_of env s = video_of env s' -> _canPlayHls s = _canPlayHls s' -> same_view env s s'.
Proof.
  intros Hv Hc. split; [exact Hv |].
  unfold hls_of. rewrite Hc.
  destruct (_canPlayHls s'); [reflexivity |].
  rewrite (canPlayNativeHls_video s s' Hv). reflexivity.
Qed.

Lemma stable_getVideoTestElement : stable env (getVideoTestElement env).
Proof.
  split.
  - intros s. unfold getVideoTestElement.
    destruct (videoTestElement s) eqn:E; [apply same_view_refl |].
    apply same_view_intro; [| reflexivity].
    unfold video_of; cbn. rewrite E. reflexivity.
  - intros s s' [Hv _]. unfold getVideoTestElement, video_of in *.
    destruct (videoTestElement s), (videoTestElement s'); cbn in *; congruence.
Qed.

Lemma stable_console_log msg e : stable env (console_log msg e).
Proof.
  split; [| reflexivity].
  intros s. apply same_view_intro; reflexivity.
Qed.

Ltac stability :=
  repeat first
    [ apply stable_ret
    | apply stable_getVideoTestElement
    | apply stable_console_log
    | apply stable_if
    | apply stable_bind; [| intros ?]
    | match goal with |- stable env (match ?x with _ => _ end) => destruct x end ].

Lemma stable_canPlayH264 : stable env (canPlayH264 env).
Proof. unfold canPlayH264; stability. Qed.

Lemma stable_canPlayHevc : stable env (canPlayHevc env).
Proof. unfold canPlayHevc; stability. Qed.

Lemma stable_canPlayAv1 : stable env (canPlayAv1 env).
Proof. unfold canPlayAv1; cbv zeta; stability. Qed.

Lemma stable_supportsAc3 : stable env (supportsAc3 env).
Proof. unfold supportsAc3; stability. Qed.

Lemma stable_supportsEac3 : stable env (supportsEac3 env).
Proof. unfold supportsEac3; stability. Qed.

Lemma stable_canPlayDts : stable env (canPlayDts env).
Proof. unfold canPlayDts; cbv zeta; stability. Qed.

Lemma stable_canPlayNativeHls : stable env (canPlayNativeHls env).
Proof. unfold canPlayNativeHls; stability. Qed.

Lemma stable_canPlayMkv : stable env (canPlayMkv env).
Proof. unfold canPlayMkv; stability. Qed.

Lemma stable_getMaxH264Level : stable env (getMaxH264Level env).
Proof. unfold getMaxH264Level; cbv zeta; stability. Qed.

Lemma stable_getMaxHevcLevel : stable env (getMaxHevcLevel env).
Proof. unfold getMaxHevcLevel; stability. Qed.

Lemma stable_getHevcProfiles : stable env (getHevcProfiles env).
Proof. unfold getHevcProfiles; stability. Qed.

Lemma stable_getGlobalMaxVideoBitrate : stable env (getGlobalMaxVideoBitrate env).
Proof. unfold getGlobalMaxVideoBitrate; stability. Qed.

(** The memo of [canPlayHls]: the first call stores what later calls return. *)
Lemma stable_canPlayHls : stable env (canPlayHls env).
Proof.
  split.
  - intros s. unfold canPlayHls.
    destruct (_canPlayHls s) eqn:E; [apply same_view_refl |].
    destruct (canPlayNativeHls env s) as [native s1] eqn:En.
    pose proof (proj1 stable_canPlayNativeHls s) as [Hv _].
    rewrite En in Hv. cbn [snd] in *.
    split.
    + exact Hv.
    + unfold hls_of; cbn [_canPlayHls]. rewrite E, En. reflexivity.
  - intros s s' [Hv Hh]. unfold canPlayHls.
    unfold hls_of in Hh.
    destruct (_canPlayHls s), (_canPlayHls s');
      repeat match goal with
             | |- context [canPlayNativeHls env ?x] =>
                 destruct (canPlayNativeHls env x) eqn:?
             end; cbn [fst] in *; exact Hh.
Qed.

End Stability.

(** Stability of a whole computation, one statement at a time. *)
Ltac stable_step :=
  first
    [ apply stable_ret
    | apply stable_getVideoTestElement
    | apply stable_console_log
    | apply stable_canPlayH264
    | apply stable_canPlayHevc
    | apply stable_canPlayAv1
    | apply stable_supportsAc3
    | apply stable_supportsEac3
    | apply stable_canPlayDts
    | apply stable_canPlayHls
    | apply stable_canPlayMkv
    | apply stable_getMaxH264Level
    | apply stable_getMaxHevcLevel
    | apply stable_getHevcProfiles
    | apply stable_getGlobalMaxVideoBitrate
    | apply stable_if
    | apply stable_bind; [| intros ?]
    | lazymatch goal with
      | |- stable ?env (let x := ?e in @?b x) =>
          change (let x := e in stable env (b x)); intro; cbv beta
      end ].

Theorem stable_getDeviceProfile env options : stable env (getDeviceProfile env options).
Proof. unfold getDeviceProfile. repeat stable_step. Qed.


(* ================================================================== *)
(** ** [getDeviceProfile] computes [assemble] of the probed facts *)
(* ================================================================== *)

Lemma if_push {A : Type} (c : bool) (arr items : list A) :
  (if c then JS.push arr items else arr) = arr ++ opt c items.
Proof. destruct c; cbn; [reflexivity | rewrite app_nil_r; reflexivity]. Qed.

Lemma if_app_opt {A : Type} (c : bool) (arr items : list A) :
  (if c then arr ++ items else arr) = arr ++ opt c items.
Proof. destruct c; cbn; [reflexivity | rewrite app_nil_r; reflexivity]. Qed.

Lemma push_if_limited_app g conditions :
  push_if_limited g conditions = conditions ++ push_if_limited g [].
Proof.
  unfold push_if_limited, JS.push. destruct g as [limit |].
  - destruct (JS.truthy_number limit); [reflexivity | rewrite app_nil_r; reflexivity].
  - rewrite app_nil_r; reflexivity.
Qed.

Section PushLaws.

Variable p : DeviceProfile.

Lemma if_push_DirectPlayProfiles (c : bool) items :
  (if c then push_DirectPlayProfiles p items else p)
  = push_DirectPlayProfiles p (opt c items).
Proof.
  destruct c; [reflexivity |].
  destruct p; unfold push_DirectPlayProfiles, JS.push; cbn. rewrite app_nil_r. reflexivity.
Qed.

Lemma if_push_TranscodingProfiles (c : bool) items :
  (if c then push_TranscodingProfiles p items else p)
  = push_TranscodingProfiles p (opt c items).
Proof.
  destruct c; [reflexivity |].
  destruct p; unfold push_TranscodingProfiles, JS.push; cbn. rewrite app_nil_r. reflexivity.
Qed.

Lemma if_push_ContainerProfiles (c : bool) items :
  (if c then push_ContainerProfiles p items else p)
  = push_ContainerProfiles p (opt c items).
Proof.
  destruct c; [reflexivity |].
  destruct p; unfold push_ContainerProfiles, JS.push; cbn. rewrite app_nil_r. reflexivity.
Qed.

Lemma if_push_CodecProfiles (c : bool) items :
  (if c then push_CodecProfiles p items else p)
  = push_CodecProfiles p (opt c items).
Proof.
  destruct c; [reflexivity |].
  destruct p; unfold push_CodecProfiles, JS.push; cbn. rewrite app_nil_r. reflexivity.
Qed.

End PushLaws.

Lemma match_push_CodecProfiles g p :
  match g with
  | Some limit =>
      if JS.truthy_number limit
      then push_CodecProfiles p [global_video_rule limit]
      else p
  | None => p
  end = push_CodecProfiles p (global_rules g).
Proof.
  destruct g as [limit |]; cbn [global_rules].
  - apply if_push_CodecProfiles.
  - apply (if_push_CodecProfiles p false []).
Qed.

Lemma forEach_push_DirectPlayProfiles (c : string -> bool) (r : string -> DirectPlayProfile.t)
    formats p :
  forEach formats
    (fun format profile =>
       if c format then push_DirectPlayProfiles profile [r format] else profile) p
  = push_DirectPlayProfiles p (flat_map (fun format => opt (c format) [r format]) formats).
Proof.
  unfold forEach. revert p. induction formats as [| f formats IH]; intros p; cbn [fold_left flat_map].
  - destruct p; unfold push_DirectPlayProfiles, JS.push; cbn. rewrite app_nil_r. reflexivity.
  - rewrite IH, if_push_DirectPlayProfiles.
    unfold push_DirectPlayProfiles, JS.push; cbn. rewrite app_assoc. reflexivity.
Qed.

Lemma forEach_push_TranscodingProfiles (c : string -> bool) (r : string -> TranscodingProfile.t)
    formats p :
  forEach formats
    (fun format profile =>
       if c format then push_TranscodingProfiles profile [r format] else profile) p
  = push_TranscodingProfiles p (flat_map (fun format => opt (c format) [r format]) formats).
Proof.
  unfold forEach. revert p. induction formats as [| f formats IH]; intros p; cbn [fold_left flat_map].
  - destruct p; unfold push_TranscodingProfiles, JS.push; cbn. rewrite app_nil_r. reflexivity.
  - rewrite IH, if_push_TranscodingProfiles.
    unfold push_TranscodingProfiles, JS.push; cbn. rewrite app_assoc. reflexivity.
Qed.

(** Running a stable probe inside a build: its result is the one it has
    on any state with the same view. *)
Lemma bind_stable {A B : Type} env (m : M A) (k : A -> M B) s0 s (R : B) :
  stable env m -> same_view env s s0 ->
  (forall s', same_view env s' s0 -> fst (k (fst (m s0)) s') = R) ->
  fst (bind m k s) = R.
Proof.
  intros [Hm1 Hm2] Hv Hk. rewrite bind_run, (Hm2 s s0 Hv).
  apply Hk. eapply same_view_trans; [apply Hm1 | exact Hv].
Qed.

Lemma fst_if {A : Type} (c : bool) (m1 m2 : M A) s :
  fst ((if c then m1 else m2) s) = if c then fst (m1 s) else fst (m2 s).
Proof. destruct c; reflexivity. Qed.

(** One statement of a build: a local binding becomes an equation, a probe
    call is replaced by its value on the reference state. *)
Ltac build_step :=
  lazymatch goal with
  | |- fst ((let x := ?e in @?b x) ?s) = ?R =>
      let y := fresh x in
      let Hy := fresh "E" y in
      pose (y := e);
      change (fst (b y s) = R); cbv beta;
      assert (Hy : y = e) by reflexivity;
      clearbody y
  | |- fst (bind ?m ?k ?s) = ?R =>
      eapply bind_stable;
      [ solve [repeat stable_step] | eassumption | intros ? ?; cbv beta ]
  end.

(** Bring one equation of a build to the append form and use it. *)
Ltac build_normal H :=
  cbv zeta in H;
  rewrite ?fst_if, ?bind_run in H;
  cbv beta zeta in H; unfold ret in H; cbn [fst] in H;
  rewrite ?if_push, ?if_app_opt,
    ?if_push_DirectPlayProfiles, ?if_push_TranscodingProfiles,
    ?if_push_ContainerProfiles, ?if_push_CodecProfiles,
    ?match_push_CodecProfiles,
    ?forEach_push_DirectPlayProfiles, ?forEach_push_TranscodingProfiles in H.

Lemma getDeviceProfile_from env options s0 s :
  same_view env s s0 ->
  fst (getDeviceProfile env options s) = assemble (facts env s0).
Proof.
  intros Hs. cbv beta delta [getDeviceProfile].
  repeat build_step.
  unfold ret; cbn [fst].
  repeat match goal with
         | H : ?x = _ |- _ => is_var x; build_normal H; subst x
         end.
  cbv beta iota delta
    [push_DirectPlayProfiles push_TranscodingProfiles push_ContainerProfiles
     push_CodecProfiles push_SubtitleProfiles push_ResponseProfiles JS.push
     MaxStreamingBitrate MaxStaticBitrate MusicStreamingTranscodingBitrate
     DirectPlayProfiles TranscodingProfiles ContainerProfiles CodecProfiles
     SubtitleProfiles ResponseProfiles].
  rewrite <- ?app_assoc. cbn [app].
  reflexivity.
Qed.

(** The document of a build is the assembler applied to the facts probed
    from the state the build starts in. *)
Theorem getDeviceProfile_assemble env options s :
  fst (getDeviceProfile env options s) = assemble (facts env s).
Proof. apply getDeviceProfile_from, same_view_refl. Qed.

(* ================================================================== *)
(** ** What the probes return *)
(* ================================================================== *)

Lemma in_opt {A : Type} (c : bool) (l : list A) (x : A) :
  In x (opt c l) <-> c = true /\ In x l.
Proof. destruct c; cbn; intuition discriminate. Qed.

Lemma nontizen_version env : isTizen env = false -> getTizenVersion env = 0%Q.
Proof. unfold getTizenVersion. intros ->. reflexivity. Qed.

Lemma tizen_canPlayHevc env s : isTizen env = true -> fst (canPlayHevc env s) = true.
Proof. unfold canPlayHevc. intros ->. reflexivity. Qed.

(** The bitrate probe has two possible answers. *)
Lemma getGlobalMaxVideoBitrate_cases env s :
  fst (getGlobalMaxVideoBitrate env s) = None
  \/ fst (getGlobalMaxVideoBitrate env s) = Some 20000000.
Proof.
  unfold getGlobalMaxVideoBitrate, panel_limit.
  destruct (isTizen env); [| left; reflexivity].
  destruct (webapis env) as [w |]; [| left; reflexivity].
  destruct (productinfo w) as [info |]; [| left; reflexivity].
  destruct (isUdPanelSupported info) as [[|] | e]; cbn; auto.
Qed.

(** The conditions of a dedicated codec rule: the three advisory ones and,
    behind them, the bitrate condition when there is a ceiling. *)
Lemma conditions_on_limited property codec g conditions :
  conditions_on property (codec_rule codec (push_if_limited g conditions))
  = filter (on_property property) conditions
    ++ filter (on_property property) (push_if_limited g []).
Proof.
  unfold conditions_on, codec_rule; cbn [CodecProfile.Conditions].
  rewrite (push_if_limited_app g conditions). apply filter_app.
Qed.

Lemma bitrate_conditions_limited g :
  g = None \/ g = Some 20000000 ->
  filter (on_property "VideoBitrate") (push_if_limited g [])
  = match g with
    | Some limit => [required_bitrate limit]
    | None => []
    end.
Proof. intros [-> | ->]; reflexivity. Qed.

Lemma other_conditions_limited property g :
  String.eqb "VideoBitrate" property = false ->
  filter (on_property property) (push_if_limited g []) = [].
Proof.
  intros H. unfold push_if_limited, JS.push. destruct g as [limit |]; [| reflexivity].
  destruct (JS.truthy_number limit); [| reflexivity].
  cbn [app filter]. unfold on_property; cbn [ProfileCondition.Property required_bitrate].
  rewrite H. reflexivity.
Qed.

(** The rules of the assembled document that name a codec. *)
Lemma codec_rules_assemble F codec :
  codec_rules codec (assemble F)
  = opt (String.eqb "h264" codec) [h264Rule_of F]
    ++ opt (String.eqb "hevc" codec) [hevcRule_of F]
    ++ opt (f_av1 F && String.eqb "av1" codec) [av1Rule_of F].
Proof.
  unfold codec_rules, assemble; cbn [CodecProfiles]. unfold codecProfiles_of.
  rewrite !filter_app.
  assert (Hg : filter (rule_for codec) (globalRule_of F) = []).
  { unfold globalRule_of, global_rules. destruct (f_globalMaxVideoBitrate F) as [limit |];
      [destruct (JS.truthy_number limit) |]; reflexivity. }
  rewrite Hg.
  unfold rule_for, opt, h264Rule_of, hevcRule_of, av1Rule_of, audio_channel_rule, codec_rule.
  destruct (f_av1 F); cbn [filter CodecProfile.Codec app andb];
    destruct (String.eqb "h264" codec), (String.eqb "hevc" codec);
    try destruct (String.eqb "av1" codec); reflexivity.
Qed.

Lemma getGlobalMaxVideoBitrate_limited env s :
  fst (getGlobalMaxVideoBitrate env s) = Some 20000000 <-> panel_confirmed_fhd env.
Proof.
  unfold getGlobalMaxVideoBitrate, panel_limit, panel_confirmed_fhd.
  destruct (isTizen env);
    [| split; [discriminate | intros [H _]; discriminate]].
  destruct (webapis env) as [w |];
    [| split; [discriminate | intros [_ (w' & info' & Hw & _)]; discriminate]].
  destruct (productinfo w) as [info |] eqn:Ei;
    [| split; [discriminate |];
       intros [_ (w' & info' & Hw & Hi & _)]; inversion Hw; subst; congruence].
  destruct (isUdPanelSupported info) as [[|] | e] eqn:Eq; cbn.
  - split; [discriminate |].
    intros [_ (w' & info' & Hw & Hi & Hq)]. inversion Hw; subst.
    rewrite Ei in Hi. inversion Hi; subst. congruence.
  - split; [| reflexivity].
    intros _. split; [reflexivity |]. exists w, info. auto.
  - split; [discriminate |].
    intros [_ (w' & info' & Hw & Hi & Hq)]. inversion Hw; subst.
    rewrite Ei in Hi. inversion Hi; subst. congruence.
Qed.

(* ------------------------------------------------------------------ *)
(** *** Joined lists read back *)

Lemma split_free sep x : free_of sep x = true -> split sep x = [x].
Proof.
  induction x as [| c x IH]; cbn; [reflexivity |].
  destruct (Ascii.eqb c sep); cbn; [discriminate |].
  intros H. rewrite (IH H). reflexivity.
Qed.

Lemma split_append sep x rest :
  free_of sep x = true ->
  split sep (String.append x (String sep rest)) = x :: split sep rest.
Proof.
  induction x as [| c x IH]; cbn.
  - intros _. rewrite Ascii.eqb_refl. reflexivity.
  - destruct (Ascii.eqb c sep); cbn; [discriminate |].
    intros H. rewrite (IH H). reflexivity.
Qed.

(** Splitting a joined list gives the list back, when no entry contains
    the separator. *)
Lemma split_join sep l :
  l <> [] ->
  Forall (fun x => free_of sep x = true) l ->
  split sep (JS.join l (String sep EmptyString)) = l.
Proof.
  unfold JS.join.
  induction l as [| x l IH]; [congruence |].
  intros _ Hfree. inversion Hfree as [| ? ? Hx Hl]; subst.
  destruct l as [| y l].
  - cbn. apply split_free, Hx.
  - cbn [String.concat]. cbn [String.append].
    rewrite (split_append sep x _ Hx). f_equal. apply IH; [discriminate | exact Hl].
Qed.

Lemma Forall_opt {A : Type} (P : A -> Prop) (c : bool) (l : list A) :
  Forall P l -> Forall P (opt c l).
Proof. destruct c; [auto | constructor]. Qed.

Ltac comma_free :=
  repeat first
    [ apply Forall_app; split
    | apply Forall_opt
    | apply Forall_cons; [reflexivity |]
    | apply Forall_nil ].

Lemma codec_list_videoAudioCodecs F :
  codec_list (JS.join (videoAudioCodecs_of F) ",") = videoAudioCodecs_of F.
Proof.
  apply split_join; [discriminate |]. unfold videoAudioCodecs_of. comma_free.
Qed.

Lemma codec_list_hlsAudioCodecs F :
  codec_list (JS.join (hlsAudioCodecs_of F) ",") = hlsAudioCodecs_of F.
Proof.
  apply split_join; [discriminate |]. unfold hlsAudioCodecs_of. comma_free.
Qed.

(** The direct-play rules of the assembled document, one by one. *)
Lemma in_directPlayProfiles F r :
  In r (directPlayProfiles_of F) ->
  (r = video_rule "mp4,m4v" (JS.join (mp4VideoCodecs_of F) ",")
         (JS.join (videoAudioCodecs_of F) ",")
   /\ JS.truthy_length (mp4VideoCodecs_of F) = true)
  \/ (r = video_rule "mkv" (JS.join (mkvVideoCodecs_of F) ",")
            (JS.join (videoAudioCodecs_of F) ",")
      /\ f_mkv F && JS.truthy_length (mkvVideoCodecs_of F) = true)
  \/ (r = video_rule "ts,mpegts" (JS.join (tsVideoCodecs_of F) ",")
            (JS.join (videoAudioCodecs_of F) ",")
      /\ f_ts F = true)
  \/ (r = video_rule "hls" (JS.join (hlsVideoCodecs_of F) ",")
            (JS.join (hlsAudioCodecs_of F) ",")
      /\ f_hls F && JS.truthy_length (hlsVideoCodecs_of F) = true)
  \/ (exists format,
        r = audio_rule format /\ f_audioFormat F format = true
        /\ In format ["mp3"; "aac"; "flac"; "wav"; "ogg"; "opus"]).
Proof.
  unfold directPlayProfiles_of.
  rewrite !in_app_iff, !in_opt, in_flat_map. cbn [In].
  intros [[Hc [<- | []]] | [[Hc [<- | []]] | [[Hc [<- | []]] | [[Hc [<- | []]] | H]]]].
  - left. auto.
  - right. left. auto.
  - do 2 right. left. auto.
  - do 3 right. left. auto.
  - do 4 right. destruct H as (format & Hin & Hr). apply in_opt in Hr.
    destruct Hr as [Hc [<- | []]]. exists format. auto.
Qed.

(* ------------------------------------------------------------------ *)
(** *** Lists that only grow *)

Lemma Subseq_refl {A : Type} (l : list A) : Subseq l l.
Proof. induction l; constructor; assumption. Qed.

Lemma Subseq_nil_l {A : Type} (l : list A) : Subseq [] l.
Proof. induction l; constructor; assumption. Qed.

Lemma Subseq_app {A : Type} (l1 l1' l2 l2' : list A) :
  Subseq l1 l1' -> Subseq l2 l2' -> Subseq (l1 ++ l2) (l1' ++ l2').
Proof.
  intros H1 H2. induction H1; cbn; [assumption | constructor .. ]; assumption.
Qed.

Lemma Subseq_opt {A : Type} (c c' : bool) (l : list A) :
  (c = true -> c' = true) -> Subseq (opt c l) (opt c' l).
Proof.
  destruct c, c'; cbn; intros H;
    [apply Subseq_refl | discriminate (H eq_refl) | apply Subseq_nil_l | constructor].
Qed.

Section Enabling.

Variables F F' : Facts.
Hypothesis Hsame : same_but_audio F F'.
Hypothesis Hmore : audio_enabled F F'.

Lemma mp4VideoCodecs_same : mp4VideoCodecs_of F' = mp4VideoCodecs_of F.
Proof.
  destruct Hsame as (_ & _ & _ & _ & H1 & H2 & H3 & _).
  unfold mp4VideoCodecs_of. rewrite H1, H2, H3. reflexivity.
Qed.

Lemma mkvVideoCodecs_same : mkvVideoCodecs_of F' = mkvVideoCodecs_of F.
Proof. apply mp4VideoCodecs_same. Qed.

Lemma tsVideoCodecs_same : tsVideoCodecs_of F' = tsVideoCodecs_of F.
Proof.
  destruct Hsame as (_ & _ & _ & _ & _ & H2 & _).
  unfold tsVideoCodecs_of. rewrite H2. reflexivity.
Qed.

Lemma hlsVideoCodecs_same : hlsVideoCodecs_of F' = hlsVideoCodecs_of F.
Proof.
  destruct Hsame as (H0 & _ & _ & _ & H1 & H2 & _).
  unfold hlsVideoCodecs_of. rewrite H0, H1, H2. reflexivity.
Qed.

Lemma videoAudioCodecs_grow : Subseq (videoAudioCodecs_of F) (videoAudioCodecs_of F').
Proof.
  destruct Hsame as (H0 & _). destruct Hmore as (Hac3 & Heac3 & Hdts & Hfmt).
  unfold videoAudioCodecs_of. rewrite H0.
  repeat (apply Subseq_app; [first [apply Subseq_refl | apply Subseq_opt; auto] |]).
  apply Subseq_opt. intros H. apply andb_true_iff in H as [H1 H2].
  rewrite (Hfmt _ H1), H2. reflexivity.
Qed.

Lemma hlsAudioCodecs_grow : Subseq (hlsAudioCodecs_of F) (hlsAudioCodecs_of F').
Proof.
  destruct Hmore as (Hac3 & Heac3 & _).
  unfold hlsAudioCodecs_of.
  repeat (apply Subseq_app; [first [apply Subseq_refl | apply Subseq_opt; auto] |]).
  apply Subseq_opt; auto.
Qed.

Lemma video_rule_grows container videoCodec :
  rule_grows
    (video_rule container videoCodec (JS.join (videoAudioCodecs_of F) ","))
    (video_rule container videoCodec (JS.join (videoAudioCodecs_of F') ",")).
Proof.
  repeat (split; [reflexivity |]).
  cbn [video_rule DirectPlayProfile.AudioCodec].
  rewrite !codec_list_videoAudioCodecs. apply videoAudioCodecs_grow.
Qed.

Lemma directPlayProfiles_grow r :
  In r (directPlayProfiles_of F) ->
  exists r', In r' (directPlayProfiles_of F') /\ rule_grows r r'.
Proof.
  intros Hr. apply in_directPlayProfiles in Hr.
  destruct Hsame as (_ & _ & _ & _ & _ & _ & _ & Hmkv & Hts & Hhls & _).
  destruct Hr as [[-> Hc] | [[-> Hc] | [[-> Hc] | [[-> Hc] | (format & -> & Hc & Hin)]]]].
  - exists (video_rule "mp4,m4v" (JS.join (mp4VideoCodecs_of F') ",")
              (JS.join (videoAudioCodecs_of F') ",")).
    split.
    + unfold directPlayProfiles_of. rewrite in_app_iff, in_opt. left.
      rewrite mp4VideoCodecs_same. split; [exact Hc | left; reflexivity].
    + rewrite mp4VideoCodecs_same. apply video_rule_grows.
  - exists (video_rule "mkv" (JS.join (mkvVideoCodecs_of F') ",")
              (JS.join (videoAudioCodecs_of F') ",")).
    split.
    + unfold directPlayProfiles_of. rewrite !in_app_iff, !in_opt. right. left.
      rewrite mkvVideoCodecs_same, Hmkv. split; [exact Hc | left; reflexivity].
    + rewrite mkvVideoCodecs_same. apply video_rule_grows.
  - exists (video_rule "ts,mpegts" (JS.join (tsVideoCodecs_of F') ",")
              (JS.join (videoAudioCodecs_of F') ",")).
    split.
    + unfold directPlayProfiles_of. rewrite !in_app_iff, !in_opt. do 2 right. left.
      rewrite Hts. split; [exact Hc | left; reflexivity].
    + rewrite tsVideoCodecs_same. apply video_rule_grows.
  - exists (video_rule "hls" (JS.join (hlsVideoCodecs_of F') ",")
              (JS.join (hlsAudioCodecs_of F') ",")).
    split.
    + unfold directPlayProfiles_of. rewrite !in_app_iff, !in_opt. do 3 right. left.
      rewrite hlsVideoCodecs_same, Hhls. split; [exact Hc | left; reflexivity].
    + rewrite hlsVideoCodecs_same. repeat (split; [reflexivity |]).
      cbn [video_rule DirectPlayProfile.AudioCodec].
      rewrite !codec_list_hlsAudioCodecs. apply hlsAudioCodecs_grow.
  - exists (audio_rule format). split.
    + unfold directPlayProfiles_of. rewrite !in_app_iff. do 4 right.
      apply in_flat_map. exists format. split; [exact Hin |].
      apply in_opt. split; [| left; reflexivity].
      destruct Hmore as (_ & _ & _ & Hfmt). apply Hfmt, Hc.
    + repeat split.
Qed.

Lemma transcodingProfiles_grow t :
  In t (transcodingProfiles_of F) ->
  exists t', In t' (transcodingProfiles_of F') /\ transcoding_grows t t'.
Proof.
  destruct Hsame as (_ & _ & Hch & _ & _ & _ & _ & _ & _ & Hhls & Hfmp4 & _).
  unfold transcodingProfiles_of. intros Ht.
  rewrite in_app_iff, in_opt, in_flat_map in Ht.
  destruct Ht as [[Hc [<- | []]] | (format & Hin & Ht)].
  - exists (hls_transcoding (if f_fmp4 F' then "mp4" else "ts")
              (JS.join (hlsAudioCodecs_of F') ",") (JS.join (hlsVideoCodecs_of F') ",")
              (JS.toString (f_physicalAudioChannels F'))).
    split.
    + rewrite in_app_iff, in_opt. left.
      rewrite hlsVideoCodecs_same, Hhls. split; [exact Hc | left; reflexivity].
    + rewrite hlsVideoCodecs_same, Hfmp4, Hch.
      repeat (split; [reflexivity |]).
      cbn [hls_transcoding TranscodingProfile.AudioCodec].
      rewrite !codec_list_hlsAudioCodecs. apply hlsAudioCodecs_grow.
  - apply in_opt in Ht. destruct Ht as [Hc [<- | []]].
    exists (audio_transcoding format (JS.toString (f_physicalAudioChannels F'))). split.
    + rewrite in_app_iff, in_flat_map. right. exists format. split; [exact Hin |].
      apply in_opt. split; [| left; reflexivity].
      destruct Hmore as (_ & _ & _ & Hfmt). apply Hfmt, Hc.
    + rewrite Hch. repeat (split; [reflexivity |]). apply Subseq_refl.
Qed.

Lemma containerProfiles_same : containerProfiles_of F' = containerProfiles_of F.
Proof.
  destruct Hsame as (_ & Hv & _). unfold containerProfiles_of. rewrite Hv. reflexivity.
Qed.

Lemma codecProfiles_same : codecProfiles_of F' = codecProfiles_of F.
Proof.
  destruct Hsame as
    (_ & Hv & Hch & Hg & _ & _ & Hav1 & _ & _ & _ & _ & Hhdr & Hhlg & Hl4 & Hl5 & Hp).
  unfold codecProfiles_of, h264Rule_of, hevcRule_of, av1Rule_of, globalRule_of,
    hevcVideoRangeTypes_of, av1VideoRangeTypes_of, baseRangeTypes_of.
  rewrite Hv, Hch, Hg, Hav1, Hhdr, Hhlg, Hl4, Hl5, Hp. reflexivity.
Qed.

End Enabling.

Lemma truthy_length_nonempty {A : Type} (l : list A) :
  JS.truthy_length l = true -> l <> [].
Proof. destruct l; [discriminate | discriminate]. Qed.

Ltac codec_cases H :=
  repeat (apply in_app_or in H; destruct H as [H | H]);
  repeat (apply in_opt in H; destruct H as [? H]);
  repeat (destruct H as [<- | H]); try contradiction.

Lemma mp4VideoCodecs_supported F codec :
  In codec (mp4VideoCodecs_of F) -> video_fact F codec = true.
Proof. unfold mp4VideoCodecs_of. intros H. codec_cases H; assumption. Qed.

Lemma hlsVideoCodecs_supported F codec :
  In codec (hlsVideoCodecs_of F) -> video_fact F codec = true.
Proof. unfold hlsVideoCodecs_of. intros H. codec_cases H; assumption. Qed.

Lemma codec_list_join l :
  l <> [] -> Forall (fun x => free_of "," x = true) l -> codec_list (JS.join l ",") = l.
Proof. apply split_join. Qed.

(* ------------------------------------------------------------------ *)
(** *** Codec lists and the facts behind them *)

Lemma videoAudioCodecs_backed F codec :
  In codec (videoAudioCodecs_of F) ->
  In codec baseline_audio \/ audio_fact F codec = true.
Proof.
  unfold videoAudioCodecs_of. intros H. codec_cases H;
    try (left; cbn; auto; fail); right; try assumption.
  apply andb_true_iff in H0 as [H0 _]. exact H0.
Qed.

Lemma hlsAudioCodecs_backed F codec :
  In codec (hlsAudioCodecs_of F) ->
  In codec baseline_audio \/ audio_fact F codec = true.
Proof.
  unfold hlsAudioCodecs_of. intros H. codec_cases H;
    try (left; cbn; auto; fail); right; assumption.
Qed.

Lemma tsVideoCodecs_backed F codec :
  In codec (tsVideoCodecs_of F) -> video_fact F codec = true \/ codec = "h264".
Proof.
  unfold tsVideoCodecs_of. intros H. codec_cases H; [right; reflexivity | left; assumption].
Qed.

Lemma codec_list_mp4VideoCodecs F :
  JS.truthy_length (mp4VideoCodecs_of F) = true ->
  codec_list (JS.join (mp4VideoCodecs_of F) ",") = mp4VideoCodecs_of F.
Proof.
  intros Hn. apply codec_list_join; [apply truthy_length_nonempty, Hn |].
  unfold mp4VideoCodecs_of. comma_free.
Qed.

Lemma codec_list_hlsVideoCodecs F :
  JS.truthy_length (hlsVideoCodecs_of F) = true ->
  codec_list (JS.join (hlsVideoCodecs_of F) ",") = hlsVideoCodecs_of F.
Proof.
  intros Hn. apply codec_list_join; [apply truthy_length_nonempty, Hn |].
  unfold hlsVideoCodecs_of. comma_free.
Qed.

Lemma codec_list_tsVideoCodecs F :
  codec_list (JS.join (tsVideoCodecs_of F) ",") = tsVideoCodecs_of F.
Proof.
  apply codec_list_join; [discriminate |]. unfold tsVideoCodecs_of. comma_free.
Qed.

(** The transcoding rules of the assembled document, one by one. *)
Lemma in_transcodingProfiles F t :
  In t (transcodingProfiles_of F) ->
  (t = hls_transcoding (if f_fmp4 F then "mp4" else "ts")
         (JS.join (hlsAudioCodecs_of F) ",") (JS.join (hlsVideoCodecs_of F) ",")
         (JS.toString (f_physicalAudioChannels F))
   /\ f_hls F && JS.truthy_length (hlsVideoCodecs_of F) = true)
  \/ (exists format,
        t = audio_transcoding format (JS.toString (f_physicalAudioChannels F))
        /\ f_audioFormat F format = true
        /\ In format ["aac"; "mp3"; "opus"; "wav"]).
Proof.
  unfold transcodingProfiles_of. rewrite in_app_iff, in_opt, in_flat_map. cbn [In].
  intros [[Hc [<- | []]] | (format & Hin & Ht)].
  - left. auto.
  - right. apply in_opt in Ht. destruct Ht as [Hc [<- | []]]. exists format. auto.
Qed.

Lemma directPlayProfiles_backed F r :
  In r (directPlayProfiles_of F) -> direct_play_backed F r.
Proof.
  intros Hr. apply in_directPlayProfiles in Hr.
  destruct Hr as [[-> Hn] | [[-> Hn] | [[-> Hn] | [[-> Hn] | (format & -> & Hf & _)]]]];
    unfold direct_play_backed;
    cbn [video_rule audio_rule DirectPlayProfile.VideoCodec DirectPlayProfile.AudioCodec
           DirectPlayProfile.Container DirectPlayProfile.Type_].
  - rewrite (codec_list_mp4VideoCodecs F Hn), codec_list_videoAudioCodecs.
    split; [reflexivity |]. split; [left; reflexivity |]. split.
    + intros codec Hin. left. apply mp4VideoCodecs_supported, Hin.
    + apply videoAudioCodecs_backed.
  - apply andb_true_iff in Hn as [Hmkv Hn].
    change (mkvVideoCodecs_of F) with (mp4VideoCodecs_of F) in *.
    rewrite (codec_list_mp4VideoCodecs F Hn), codec_list_videoAudioCodecs.
    split; [reflexivity |]. split; [right; exact Hmkv |]. split.
    + intros codec Hin. left. apply mp4VideoCodecs_supported, Hin.
    + apply videoAudioCodecs_backed.
  - rewrite codec_list_tsVideoCodecs, codec_list_videoAudioCodecs.
    split; [reflexivity |]. split; [right; exact Hn |]. split.
    + intros codec Hin. apply tsVideoCodecs_backed in Hin as [Hin | Hin]; auto.
    + apply videoAudioCodecs_backed.
  - apply andb_true_iff in Hn as [Hhls Hn].
    rewrite (codec_list_hlsVideoCodecs F Hn), codec_list_hlsAudioCodecs.
    split; [reflexivity |]. split; [right; exact Hhls |]. split.
    + intros codec Hin. left. apply hlsVideoCodecs_supported, Hin.
    + apply hlsAudioCodecs_backed.
  - split; [reflexivity | exact Hf].
Qed.

Lemma transcodingProfiles_backed F t :
  In t (transcodingProfiles_of F) -> transcoding_backed F t.
Proof.
  intros Ht. apply in_transcodingProfiles in Ht.
  destruct Ht as [[-> Hn] | (format & -> & Hf & _)]; unfold transcoding_backed;
    cbn [hls_transcoding audio_transcoding TranscodingProfile.VideoCodec
           TranscodingProfile.AudioCodec TranscodingProfile.Container
           TranscodingProfile.Type_ TranscodingProfile.Protocol].
  - apply andb_true_iff in Hn as [Hhls Hn].
    rewrite (codec_list_hlsVideoCodecs F Hn), codec_list_hlsAudioCodecs.
    repeat (split; [first [reflexivity | exact Hhls] |]). split.
    + intros codec Hin. apply hlsVideoCodecs_supported, Hin.
    + apply hlsAudioCodecs_backed.
  - repeat split. exact Hf.
Qed.

(** Without a playable video codec the video lists are empty. *)
Lemma no_video_codec F :
  f_h264 F = false -> f_hevc F = false -> f_av1 F = false ->
  mp4VideoCodecs_of F = [] /\ mkvVideoCodecs_of F = [] /\ hlsVideoCodecs_of F = [].
Proof.
  intros E1 E2 E3. unfold mp4VideoCodecs_of, mkvVideoCodecs_of, hlsVideoCodecs_of.
  rewrite E1, E2, E3. repeat split.
Qed.

Lemma filter_audio_rules (c : string -> bool) (formats : list string) :
  filter is_video (flat_map (fun format => opt (c format) [audio_rule format]) formats) = [].
Proof.
  induction formats as [| format formats IH]; [reflexivity |].
  cbn [flat_map]. rewrite filter_app, IH. destruct (c format); reflexivity.
Qed.

Lemma filter_audio_transcodings (c : string -> bool) (channels : string)
      (formats : list string) :
  filter is_video_transcoding
    (flat_map (fun format => opt (c format) [audio_transcoding format channels]) formats)
  = [].
Proof.
  induction formats as [| format formats IH]; [reflexivity |].
  cbn [flat_map]. rewrite filter_app, IH. destruct (c format); reflexivity.
Qed.

(** A codec rule that names a codec names one of the three. *)
Lemma codecProfiles_named F r codec :
  In r (codecProfiles_of F) -> CodecProfile.Codec r = Some codec ->
  In codec ["h264"; "hevc"; "av1"].
Proof.
  unfold codecProfiles_of, globalRule_of, global_rules. intros Hr Hc.
  cbn [app In] in Hr. destruct Hr as [<- | [<- | Hr]].
  - cbn in Hc. assert (E : "h264" = codec) by congruence. rewrite <- E. cbn. auto.
  - cbn in Hc. assert (E : "hevc" = codec) by congruence. rewrite <- E. cbn. auto.
  - apply in_app_or in Hr as [Hr | Hr].
    + apply in_opt in Hr as [_ [<- | []]]. cbn in Hc.
      assert (E : "av1" = codec) by congruence. rewrite <- E. cbn. auto.
    + apply in_app_or in Hr as [Hr | [<- | []]]; [| discriminate Hc].
      destruct (f_globalMaxVideoBitrate F) as [limit |]; [| contradiction].
      apply in_opt in Hr as [_ [<- | []]]. discriminate Hc.
Qed.

(* ================================================================== *)
(** ** Properties of the document *)
(* ================================================================== *)

(** C1, as the code has it.  Every direct-play and transcoding rule lists
    only what the facts allow: a container is offered when its fact is
    true (MP4 has none), a video codec is listed when its fact is true,
    an audio codec is a baseline codec (aac, mp3) or has a true fact; the
    segment container of the HLS transcoding rule is the one the fMP4
    fact selects.  Without a playable video codec there is no video
    direct-play rule and no video transcoding rule.  An AV1 codec rule is
    there exactly when AV1 is playable, and no codec rule names another
    codec than h264, hevc and av1.  Two places do not consult the fact:
    the TS direct-play rule lists h264 whatever the H.264 fact, and the
    H.264 and the HEVC codec rule are there whatever their facts. *)
Theorem C1_rules_follow_facts env options s :
  let F := facts env s in
  let p := fst (getDeviceProfile env options s) in
  (if f_h264 F || f_hevc F || f_av1 F then True
   else filter is_video (DirectPlayProfiles p) = []
        /\ filter is_video_transcoding (TranscodingProfiles p) = [])
  /\ (forall r, In r (DirectPlayProfiles p) -> direct_play_backed F r)
  /\ (forall t, In t (TranscodingProfiles p) -> transcoding_backed F t)
  /\ (forall r codec, In r (CodecProfiles p) -> CodecProfile.Codec r = Some codec ->
        In codec ["h264"; "hevc"; "av1"])
  /\ List.length (codec_rules "av1" p) = (if f_av1 F then 1%nat else 0%nat)
  /\ List.length (codec_rules "h264" p) = 1%nat
  /\ List.length (codec_rules "hevc" p) = 1%nat.
Proof.
  intros F p. subst p. rewrite getDeviceProfile_assemble. fold F.
  cbn [assemble DirectPlayProfiles TranscodingProfiles CodecProfiles].
  split; [| split; [| split; [| split; [| split; [| split]]]]].
  - destruct (f_h264 F) eqn:E1, (f_hevc F) eqn:E2, (f_av1 F) eqn:E3; cbn [orb]; trivial.
    assert (Hts : f_ts F = false).
    { subst F. cbn [facts f_ts f_hevc] in *. unfold canPlayTs.
      destruct (isTizen env) eqn:Et; [| reflexivity].
      rewrite (tizen_canPlayHevc env s Et) in E2. discriminate. }
    destruct (no_video_codec F E1 E2 E3) as (Hmp4 & Hmkv & Hhls).
    unfold directPlayProfiles_of, transcodingProfiles_of.
    rewrite Hmp4, Hmkv, Hhls, Hts.
    cbn [JS.truthy_length List.length Nat.eqb negb]. rewrite !andb_false_r.
    cbn [opt app]. split.
    + apply filter_audio_rules.
    + apply filter_audio_transcodings.
  - apply directPlayProfiles_backed.
  - apply transcodingProfiles_backed.
  - apply codecProfiles_named.
  - rewrite codec_rules_assemble. cbn [String.eqb Ascii.eqb Bool.eqb opt app].
    rewrite andb_true_r. destruct (f_av1 F); reflexivity.
  - rewrite codec_rules_assemble. cbn [String.eqb Ascii.eqb Bool.eqb opt app].
    rewrite andb_false_r. reflexivity.
  - rewrite codec_rules_assemble. cbn [String.eqb Ascii.eqb Bool.eqb opt app].
    rewrite andb_false_r. reflexivity.
Qed.

Lemma C1_witness :
  direct_play_backed (facts Examples.tizen_5_5_fhd fresh)
    (video_rule "mkv" "h264,hevc,av1"
       "aac,mp3,ac3,eac3,pcm_s16le,pcm_s24le,aac_latm").
Proof.
  apply (proj1 (proj2 (C1_rules_follow_facts Examples.tizen_5_5_fhd None fresh))).
  vm_compute. right. left. reflexivity.
Defined.

(** C1 as it is stated fails on a browser that plays nothing: the H.264
    and the HEVC codec rule are emitted although both facts are false. *)
Lemma C1_counterexample :
  ~ rules_only_for_supported (facts Examples.bare_browser fresh)
      (fst (getDeviceProfile Examples.bare_browser None fresh)).
Proof.
  intros [_ H].
  specialize (H "hevc" (or_intror (or_introl eq_refl)) eq_refl).
  vm_compute in H. discriminate H.
Qed.

(** The two places where a rule is not behind the fact, on platforms: a
    Tizen TV whose media element answers no query still offers h264 in
    its TS rule; a browser that plays HLS through Media Source Extensions
    is given transport-stream segments although it has no TS
    direct play. *)
Example ts_rule_lists_h264_unprobed :
  f_h264 (facts Examples.tizen_5_5_silent fresh) = false
  /\ In (video_rule "ts,mpegts" "h264,hevc"
           "aac,mp3,ac3,eac3,pcm_s16le,pcm_s24le,aac_latm")
        (DirectPlayProfiles (fst (getDeviceProfile Examples.tizen_5_5_silent None fresh))).
Proof. split; [reflexivity |]. vm_compute. auto. Qed.

Example hls_segments_without_ts_fact :
  f_ts (facts Examples.h264_mse_browser fresh) = false
  /\ In (hls_transcoding "ts" "aac,mp3" "h264" "2")
        (TranscodingProfiles (fst (getDeviceProfile Examples.h264_mse_browser None fresh))).
Proof. split; [reflexivity |]. vm_compute. auto. Qed.

(** C2. On the H.264, HEVC and AV1 rules, every condition on VideoBitrate
    is required, and there is such a condition exactly when the bitrate
    probe returned a ceiling. *)
Theorem C2_bitrate_condition_required env options s codec r :
  In codec ["h264"; "hevc"; "av1"] ->
  In r (codec_rules codec (fst (getDeviceProfile env options s))) ->
  Forall (fun c => ProfileCondition.IsRequired c = Some true)
    (conditions_on "VideoBitrate" r)
  /\ (conditions_on "VideoBitrate" r <> []
      <-> fst (getGlobalMaxVideoBitrate env s) <> None).
Proof.
  intros Hcodec Hr.
  rewrite getDeviceProfile_assemble, codec_rules_assemble in Hr.
  pose proof (getGlobalMaxVideoBitrate_cases env s) as Hg.
  assert (Hc : conditions_on "VideoBitrate" r
               = match fst (getGlobalMaxVideoBitrate env s) with
                 | Some limit => [required_bitrate limit]
                 | None => []
                 end).
  { rewrite !in_app_iff, !in_opt in Hr. cbn [In] in Hr.
    destruct Hr as [[_ [<- | []]] | [[_ [<- | []]] | [_ [<- | []]]]];
      unfold h264Rule_of, hevcRule_of, av1Rule_of;
      rewrite conditions_on_limited; cbn [filter on_property advisory
        ProfileCondition.Property String.eqb Ascii.eqb Bool.eqb app];
      apply bitrate_conditions_limited; exact Hg. }
  rewrite Hc.
  destruct (fst (getGlobalMaxVideoBitrate env s)) as [limit |]; split.
  - constructor; [reflexivity | constructor].
  - split; intros _; discriminate.
  - constructor.
  - split; intros H; exfalso; apply H; reflexivity.
Qed.

Lemma C2_witness :
  Forall (fun c => ProfileCondition.IsRequired c = Some true)
    (conditions_on "VideoBitrate" (h264Rule_of (facts Examples.tizen_5_5_fhd fresh)))
  /\ (conditions_on "VideoBitrate" (h264Rule_of (facts Examples.tizen_5_5_fhd fresh)) <> []
      <-> fst (getGlobalMaxVideoBitrate Examples.tizen_5_5_fhd fresh) <> None).
Proof.
  apply (C2_bitrate_condition_required Examples.tizen_5_5_fhd None fresh "h264").
  - cbn; auto.
  - vm_compute. left. reflexivity.
Defined.

(** C3. True Dolby Vision is never declared; the HEVC rule nevertheless
    lists the whole Dolby Vision fallback family among its range types
    from version 3 on, and no Dolby Vision range type below version 3. *)
Theorem C3_dolby_vision_policy env options s :
  supportsDolbyVision = false
  /\ exists r value,
       codec_rules "hevc" (fst (getDeviceProfile env options s)) = [r]
       /\ condition_value "VideoRangeType" r = Some value
       /\ if JS.geq (getTizenVersion env) 3
          then forallb (fun t => mem t (range_types value)) dovi_family = true
          else existsb is_dovi (range_types value) = false.
Proof.
  split; [reflexivity |].
  exists (hevcRule_of (facts env s)), (hevcVideoRangeTypes_of (facts env s)).
  rewrite getDeviceProfile_assemble, codec_rules_assemble.
  split; [| split].
  - cbn [String.eqb Ascii.eqb Bool.eqb opt app]. rewrite andb_false_r. reflexivity.
  - unfold condition_value, hevcRule_of. rewrite conditions_on_limited.
    rewrite other_conditions_limited by reflexivity. reflexivity.
  - unfold hevcVideoRangeTypes_of, baseRangeTypes_of.
    cbn [facts f_tizenVersion f_hdr10 f_hlg]. unfold supportsHlg, supportsHdr10.
    destruct (JS.geq (getTizenVersion env) 3), (isTizen env); vm_compute; reflexivity.
Qed.

(** C4, as the code has it.  In the H.264-only scenario the version
    is 0 and the document has the single MP4 direct-play rule, no TS rule,
    no AV1 rule and no bitrate condition; its codec rules are three: the
    H.264 rule with level 42 and range type SDR, the HEVC rule (main, SDR,
    level 120) and the audio-channel rule. *)
Theorem C4_h264_only_document env options s :
  h264_only_scenario env s ->
  let p := fst (getDeviceProfile env options s) in
  getTizenVersion env = 0%Q
  /\ DirectPlayProfiles p = [video_rule "mp4,m4v" "h264" "aac,mp3"]
  /\ CodecProfiles p = h264_only_codec_rules
  /\ codec_rules "av1" p = []
  /\ Forall (fun r => conditions_on "VideoBitrate" r = []) (CodecProfiles p).
Proof.
  intros (Ht & H264 & Hevc & Hav1 & Hac3 & Heac3 & Hdts & Hmkv & Hhls & Haud
          & Hl4 & Hl5 & Hp) p.
  subst p. rewrite getDeviceProfile_assemble.
  assert (Hg : fst (getGlobalMaxVideoBitrate env s) = None)
    by (unfold getGlobalMaxVideoBitrate; rewrite Ht; reflexivity).
  pose proof (nontizen_version env Ht) as Hv.
  assert (Hd : DirectPlayProfiles (assemble (facts env s))
               = [video_rule "mp4,m4v" "h264" "aac,mp3"]).
  { cbn [assemble DirectPlayProfiles].
    unfold directPlayProfiles_of, mp4VideoCodecs_of, mkvVideoCodecs_of, tsVideoCodecs_of,
      hlsVideoCodecs_of, videoAudioCodecs_of, hlsAudioCodecs_of.
    cbn [facts f_isTizen f_ac3 f_eac3 f_dts f_audioFormat f_h264 f_hevc f_av1 f_mkv
           f_ts f_hls].
    unfold canPlayTs. cbn [flat_map].
    rewrite Ht, H264, Hevc, Hav1, Hac3, Heac3, Hdts, Hmkv, Hhls, !Haud.
    reflexivity. }
  assert (Hc : CodecProfiles (assemble (facts env s)) = h264_only_codec_rules).
  { cbn [assemble CodecProfiles].
    unfold codecProfiles_of, h264Rule_of, hevcRule_of, globalRule_of,
      hevcVideoRangeTypes_of, baseRangeTypes_of.
    cbn [facts f_tizenVersion f_physicalAudioChannels f_globalMaxVideoBitrate f_av1
           f_hdr10 f_hlg f_maxH264Level f_maxHevcLevel f_hevcProfiles].
    unfold supportsHlg, supportsHdr10, getPhysicalAudioChannels.
    rewrite Ht, Hav1, Hg, Hv, Hl4, Hl5, Hp. reflexivity. }
  split; [exact Hv |]. split; [exact Hd |]. split; [exact Hc |].
  unfold codec_rules. rewrite Hc. split; [reflexivity |].
  repeat constructor.
Qed.

Lemma C4_witness :
  h264_only_scenario Examples.h264_only_browser fresh
  /\ CodecProfiles (fst (getDeviceProfile Examples.h264_only_browser None fresh))
     = h264_only_codec_rules.
Proof.
  assert (H : h264_only_scenario Examples.h264_only_browser fresh).
  { unfold h264_only_scenario. repeat apply conj; try (vm_compute; reflexivity).
    intros format. unfold canPlayAudioFormat, typeString_of.
    repeat match goal with
           | |- context [String.eqb format ?x] => destruct (String.eqb format x)
           end; vm_compute; reflexivity. }
  split; [exact H |].
  exact (proj1 (proj2 (proj2
           (C4_h264_only_document Examples.h264_only_browser None fresh H)))).
Defined.

(** C4 as it is stated fails on the H.264-only browser: the document has
    an HEVC codec rule (and three codec rules in all). *)
Lemma C4_counterexample :
  h264_only_scenario Examples.h264_only_browser fresh
  /\ ~ h264_only_document_as_stated
         (fst (getDeviceProfile Examples.h264_only_browser None fresh)).
Proof.
  split.
  - unfold h264_only_scenario. repeat apply conj; try (vm_compute; reflexivity).
    intros format. unfold canPlayAudioFormat, typeString_of.
    repeat match goal with
           | |- context [String.eqb format ?x] => destruct (String.eqb format x)
           end; vm_compute; reflexivity.
  - intros (_ & _ & H & _). vm_compute in H. discriminate H.
Qed.

(** C5, as the code has it.  The document has an AV1 codec rule exactly
    when AV1 is playable.  Its range types are those of the HEVC rule
    without DOVIWithSDR and DOVIWithHLG: the same SDR baseline, the same
    HDR10, HDR10Plus and HLG additions and, from version 3 on, five of the
    seven Dolby Vision fallbacks.  Its profile is "main", its level
    ceiling the fixed "15", and its bitrate condition that of the HEVC
    rule: both rules are three advisory conditions (profile, range type,
    level) followed by the bitrate condition when there is a ceiling. *)
Theorem C5_av1_rule env options s :
  let p := fst (getDeviceProfile env options s) in
  (codec_rules "av1" p <> [] <-> fst (canPlayAv1 env s) = true)
  /\ forall ra,
       In ra (codec_rules "av1" p) ->
       exists rh va vh,
         codec_rules "av1" p = [ra]
         /\ codec_rules "hevc" p = [rh]
         /\ condition_value "VideoRangeType" ra = Some va
         /\ condition_value "VideoRangeType" rh = Some vh
         /\ range_types va
            = filter (fun t => negb (not_for_av1 t)) (range_types vh)
         /\ condition_value "VideoProfile" ra = Some "main"
         /\ condition_value "VideoLevel" ra = Some "15"
         /\ conditions_on "VideoBitrate" ra = conditions_on "VideoBitrate" rh
         /\ ra = codec_rule "av1"
                   (push_if_limited (fst (getGlobalMaxVideoBitrate env s))
                      [advisory "EqualsAny" "VideoProfile" "main";
                       advisory "EqualsAny" "VideoRangeType" va;
                       advisory "LessThanEqual" "VideoLevel" "15"])
         /\ rh = codec_rule "hevc"
                   (push_if_limited (fst (getGlobalMaxVideoBitrate env s))
                      [advisory "EqualsAny" "VideoProfile" (fst (getHevcProfiles env s));
                       advisory "EqualsAny" "VideoRangeType" vh;
                       advisory "LessThanEqual" "VideoLevel"
                         (JS.toString (fst (getMaxHevcLevel env s)))]).
Proof.
  intros p. subst p. rewrite getDeviceProfile_assemble, !codec_rules_assemble.
  cbn [String.eqb Ascii.eqb Bool.eqb opt app]. rewrite andb_true_r, andb_false_r.
  cbn [opt app facts f_av1].
  split.
  - destruct (fst (canPlayAv1 env s)); cbn [opt]; split; try discriminate; auto.
  - intros ra Hra. apply in_opt in Hra. destruct Hra as [Hav1 [<- | []]].
    rewrite Hav1. cbn [opt].
    exists (hevcRule_of (facts env s)), (av1VideoRangeTypes_of (facts env s)),
      (hevcVideoRangeTypes_of (facts env s)).
    split; [reflexivity |]. split; [reflexivity |].
    unfold condition_value, av1Rule_of, hevcRule_of. rewrite !conditions_on_limited.
    rewrite !other_conditions_limited by reflexivity.
    split; [reflexivity |]. split; [reflexivity |].
    split; [| repeat (split; [reflexivity |]); reflexivity].
    unfold hevcVideoRangeTypes_of, av1VideoRangeTypes_of, baseRangeTypes_of.
    cbn [facts f_tizenVersion f_hdr10 f_hlg]. unfold supportsHlg, supportsHdr10.
    destruct (JS.geq (getTizenVersion env) 3), (isTizen env); vm_compute; reflexivity.
Qed.

Lemma C5_witness :
  let p := fst (getDeviceProfile Examples.tizen_5_5_fhd None fresh) in
  let ra := av1Rule_of (facts Examples.tizen_5_5_fhd fresh) in
  exists rh va vh,
    codec_rules "av1" p = [ra]
    /\ codec_rules "hevc" p = [rh]
    /\ condition_value "VideoRangeType" ra = Some va
    /\ condition_value "VideoRangeType" rh = Some vh
    /\ range_types va = filter (fun t => negb (not_for_av1 t)) (range_types vh)
    /\ condition_value "VideoProfile" ra = Some "main"
    /\ condition_value "VideoLevel" ra = Some "15"
    /\ conditions_on "VideoBitrate" ra = conditions_on "VideoBitrate" rh
    /\ ra = codec_rule "av1"
              (push_if_limited (fst (getGlobalMaxVideoBitrate Examples.tizen_5_5_fhd fresh))
                 [advisory "EqualsAny" "VideoProfile" "main";
                  advisory "EqualsAny" "VideoRangeType" va;
                  advisory "LessThanEqual" "VideoLevel" "15"])
    /\ rh = codec_rule "hevc"
              (push_if_limited (fst (getGlobalMaxVideoBitrate Examples.tizen_5_5_fhd fresh))
                 [advisory "EqualsAny" "VideoProfile"
                    (fst (getHevcProfiles Examples.tizen_5_5_fhd fresh));
                  advisory "EqualsAny" "VideoRangeType" vh;
                  advisory "LessThanEqual" "VideoLevel"
                    (JS.toString (fst (getMaxHevcLevel Examples.tizen_5_5_fhd fresh)))]).
Proof.
  intros p ra.
  apply (proj2 (C5_av1_rule Examples.tizen_5_5_fhd None fresh) ra).
  vm_compute. left. reflexivity.
Defined.

(** C5 as it is stated fails on a Tizen 5.5 TV: the HEVC rule accepts
    DOVIWithSDR, the AV1 rule does not. *)
Lemma C5_counterexample :
  fst (canPlayAv1 Examples.tizen_5_5_fhd fresh) = true
  /\ ~ av1_mirrors_hevc (fst (getDeviceProfile Examples.tizen_5_5_fhd None fresh)).
Proof.
  split; [reflexivity |].
  intros (ra & rh & va & vh & Ha & Hh & Hva & Hvh & Hall).
  vm_compute in Ha. injection Ha as <-.
  vm_compute in Hh. injection Hh as <-.
  vm_compute in Hva. injection Hva as <-.
  vm_compute in Hvh. injection Hvh as <-.
  specialize (Hall "DOVIWithSDR"). vm_compute in Hall. discriminate Hall.
Qed.

(** C6. A build reads the module's variables only through what earlier
    builds left there: the document of a second build, started from the
    state the first one ends in, is the document of the first; and two
    builds that probe the same facts yield the same document. *)
Theorem C6_deterministic env options s :
  fst (getDeviceProfile env options (snd (getDeviceProfile env options s)))
  = fst (getDeviceProfile env options s)
  /\ forall env' options' s',
       facts env' s' = facts env s ->
       fst (getDeviceProfile env' options' s') = fst (getDeviceProfile env options s).
Proof.
  split.
  - destruct (stable_getDeviceProfile env options) as [Hview Hdet].
    apply Hdet, Hview.
  - intros env' options' s' Hf. rewrite !getDeviceProfile_assemble, Hf. reflexivity.
Qed.

Lemma C6_witness :
  fst (getDeviceProfile Examples.tizen_5_5_fhd (Some []) fresh)
  = fst (getDeviceProfile Examples.tizen_5_5_fhd None fresh).
Proof.
  apply (proj2 (C6_deterministic Examples.tizen_5_5_fhd None fresh)). reflexivity.
Defined.

(** C7, as the code has it.  Enabling audio codec facts - one of them or
    several - and changing nothing else removes nothing from the
    document: every direct-play rule is still there with the same
    container, type and video codecs and an audio codec list that keeps
    the old entries in their order, the new ones being added where the
    builder's order puts them; the same holds for the transcoding rules;
    and the container and codec rules, with all their conditions, are
    unchanged. *)
Theorem C7_audio_codecs_only_add env options s env' options' s' :
  same_but_audio (facts env s) (facts env' s') ->
  audio_enabled (facts env s) (facts env' s') ->
  let p := fst (getDeviceProfile env options s) in
  let p' := fst (getDeviceProfile env' options' s') in
  (forall r, In r (DirectPlayProfiles p) ->
     exists r', In r' (DirectPlayProfiles p') /\ rule_grows r r')
  /\ (forall t, In t (TranscodingProfiles p) ->
        exists t', In t' (TranscodingProfiles p') /\ transcoding_grows t t')
  /\ ContainerProfiles p' = ContainerProfiles p
  /\ CodecProfiles p' = CodecProfiles p.
Proof.
  intros Hsame Hmore p p'. subst p p'. rewrite !getDeviceProfile_assemble.
  cbn [assemble DirectPlayProfiles TranscodingProfiles ContainerProfiles CodecProfiles].
  split; [| split; [| split]].
  - apply directPlayProfiles_grow; assumption.
  - apply transcodingProfiles_grow; assumption.
  - apply containerProfiles_same; assumption.
  - apply codecProfiles_same; assumption.
Qed.

Lemma C7_witness :
  exists r',
    In r' (DirectPlayProfiles (fst (getDeviceProfile Examples.h264_ac3_browser None fresh)))
    /\ rule_grows (video_rule "mp4,m4v" "h264" "aac,mp3") r'.
Proof.
  assert (Hsame : same_but_audio (facts Examples.h264_only_browser fresh)
                    (facts Examples.h264_ac3_browser fresh))
    by (unfold same_but_audio; repeat apply conj; vm_compute; reflexivity).
  assert (Hmore : audio_enabled (facts Examples.h264_only_browser fresh)
                    (facts Examples.h264_ac3_browser fresh)).
  { split; [| split; [| split]]; try (intros _; reflexivity).
    - intros H; exact H.
    - intros H; exact H.
    - intros format. cbn [facts f_audioFormat]. unfold canPlayAudioFormat, typeString_of.
      repeat match goal with
             | |- context [String.eqb format ?x] => destruct (String.eqb format x)
             end; vm_compute; intros H; exact H. }
  apply (proj1 (C7_audio_codecs_only_add Examples.h264_only_browser None fresh
                  Examples.h264_ac3_browser None fresh Hsame Hmore)).
  vm_compute. left. reflexivity.
Defined.

(** C7 as it is stated fails when AC-3 is enabled on a browser that
    already plays E-AC-3: the list aac,mp3,eac3 of the MP4 rule becomes
    aac,mp3,ac3,eac3 - the new codec is put before eac3, not appended. *)
Lemma C7_counterexample :
  ac3_flipped_on (facts Examples.h264_eac3_browser fresh)
    (facts Examples.h264_ac3_eac3_browser fresh)
  /\ ~ audio_flip_only_appends
         (fst (getDeviceProfile Examples.h264_eac3_browser None fresh))
         (fst (getDeviceProfile Examples.h264_ac3_eac3_browser None fresh)).
Proof.
  split.
  - split; [unfold same_but_audio; repeat apply conj; vm_compute; reflexivity |].
    repeat (split; [vm_compute; reflexivity |]).
    intros format. cbn [facts f_audioFormat]. unfold canPlayAudioFormat, typeString_of.
    repeat match goal with
           | |- context [String.eqb format ?x] => destruct (String.eqb format x)
           end; vm_compute; reflexivity.
  - intros H.
    destruct (H (video_rule "mp4,m4v" "h264" "aac,mp3,eac3")) as (r' & Hin & Hr').
    { vm_compute. left. reflexivity. }
    vm_compute in Hin. destruct Hin as [<- | []].
    destruct Hr' as (_ & _ & _ & more & Hmore).
    vm_compute in Hmore. discriminate Hmore.
Qed.

(** C8. When the panel query gives no answer the bitrate probe returns
    null, never a number and never an exception; a build then still
    yields the whole document, with the fixed subtitle and response rules
    and the H.264, HEVC and audio-channel rules.  The probe returns
    20,000,000 exactly when the panel is confirmed below 4K on Tizen, and
    null in every other case. *)
Theorem C8_panel_query_fails_open env options s :
  panel_unknown env ->
  fst (getGlobalMaxVideoBitrate env s) = None
  /\ (let p := fst (getDeviceProfile env options s) in
      MaxStreamingBitrate p = 120000000
      /\ MaxStaticBitrate p = 100000000
      /\ MusicStreamingTranscodingBitrate p = 384000
      /\ SubtitleProfiles p = subtitleProfiles_of
      /\ ResponseProfiles p = responseProfiles_of
      /\ List.length (codec_rules "h264" p) = 1%nat
      /\ List.length (codec_rules "hevc" p) = 1%nat
      /\ In (audio_channel_rule (JS.toString (getPhysicalAudioChannels env)))
           (CodecProfiles p))
  /\ (forall env' s',
        (fst (getGlobalMaxVideoBitrate env' s') = Some 20000000
         <-> panel_confirmed_fhd env')
        /\ (fst (getGlobalMaxVideoBitrate env' s') = None
            \/ fst (getGlobalMaxVideoBitrate env' s') = Some 20000000)).
Proof.
  intros Hu. split; [| split].
  - unfold panel_unknown in Hu.
    unfold getGlobalMaxVideoBitrate, panel_limit.
    destruct (isTizen env); [| reflexivity].
    destruct (webapis env) as [w |]; [| reflexivity].
    destruct (productinfo w) as [info |]; [| reflexivity].
    destruct Hu as [e ->]. reflexivity.
  - cbv zeta. rewrite getDeviceProfile_assemble.
    repeat (split; [reflexivity |]).
    rewrite !codec_rules_assemble.
    cbn [String.eqb Ascii.eqb Bool.eqb opt app]. rewrite !andb_false_r.
    repeat (split; [reflexivity |]).
    cbn [assemble CodecProfiles]. unfold codecProfiles_of.
    rewrite !in_app_iff. right. right. right. left. reflexivity.
  - intros env' s'. split.
    + apply getGlobalMaxVideoBitrate_limited.
    + apply getGlobalMaxVideoBitrate_cases.
Qed.

Lemma C8_witness :
  panel_unknown Examples.tizen_3_0_throwing
  /\ fst (getGlobalMaxVideoBitrate Examples.tizen_3_0_throwing fresh) = None.
Proof.
  assert (H : panel_unknown Examples.tizen_3_0_throwing)
    by (cbn; exists "SecurityError"; reflexivity).
  split; [exact H |].
  exact (proj1 (C8_panel_query_fails_open Examples.tizen_3_0_throwing None fresh H)).
Defined.



(** C10. On every platform that is not Tizen the version is 0, so the
    document carries the container rule that caps the number of streams
    at 32 (Condition LessThanEqual, Property NumStreams, Value "32",
    IsRequired false). *)
Theorem C10_stream_cap_on_generic_browsers env options s :
  isTizen env = false ->
  getTizenVersion env = 0%Q
  /\ ContainerProfiles (fst (getDeviceProfile env options s))
     = [{| ContainerProfile.Type_ := "Video";
           ContainerProfile.Conditions :=
             [{| ProfileCondition.Condition := "LessThanEqual";
                 ProfileCondition.Property := "NumStreams";
                 ProfileCondition.Value := "32";
                 ProfileCondition.IsRequired := Some false |}] |}].
Proof.
  intros Hnt. split; [apply nontizen_version, Hnt |].
  rewrite getDeviceProfile_assemble.
  cbn [assemble ContainerProfiles]. unfold containerProfiles_of.
  cbn [facts f_tizenVersion]. rewrite (nontizen_version env Hnt). reflexivity.
Qed.

Lemma C10_witness :
  isTizen Examples.h264_only_browser = false
  /\ getTizenVersion Examples.h264_only_browser = 0%Q
  /\ List.length (ContainerProfiles (fst (getDeviceProfile Examples.h264_only_browser None fresh)))
     = 1%nat.
Proof.
  split; [reflexivity |].
  destruct (C10_stream_cap_on_generic_browsers Examples.h264_only_browser None fresh)
    as [Hv Hc]; [reflexivity |].
  split; [exact Hv | rewrite Hc; reflexivity].
Defined.

(* ================================================================== *)
(** ** Properties of the probes *)
(* ================================================================== *)

Lemma replace_no_empty answer :
  JS.replace_no answer = EmptyString <-> answer = EmptyString \/ answer = "no".
Proof.
  split.
  - destruct answer as [| c1 [| c2 rest]].
    + auto.
    + cbn. destruct c1 as [[] [] [] [] [] [] [] []]; discriminate.
    + intros H. right.
      destruct (Ascii.eqb c1 "n") eqn:E1; [apply Ascii.eqb_eq in E1; subst c1 |].
      * destruct (Ascii.eqb c2 "o") eqn:E2; [apply Ascii.eqb_eq in E2; subst c2 |].
        -- cbn in H. subst rest. reflexivity.
        -- exfalso. cbn in H.
           destruct c2 as [[] [] [] [] [] [] [] []]; try discriminate H.
           discriminate E2.
      * exfalso. cbn in H.
        destruct c1 as [[] [] [] [] [] [] [] []]; try discriminate H.
        discriminate E1.
  - intros [-> | ->]; reflexivity.
Qed.

Lemma plays_iff el t :
  plays el t = true
  <-> exists answer,
        canPlayType el = Some answer
        /\ answer t <> EmptyString /\ answer t <> "no".
Proof.
  unfold plays. destruct (canPlayType el) as [answer |].
  - split.
    + intros H. exists answer. split; [reflexivity |].
      destruct (JS.replace_no (answer t)) eqn:E; [discriminate |].
      split; intros Ha; rewrite Ha in E; discriminate.
    + intros (answer' & Ha & H1 & H2). injection Ha as <-.
      destruct (JS.replace_no (answer t)) eqn:E; [| reflexivity].
      apply replace_no_empty in E. tauto.
  - split; [discriminate | intros (? & H & _); discriminate].
Qed.

(** X1. H.264 counts as playable exactly when the test element has a
    [canPlayType] and its answer to the baseline query is neither the
    empty string nor "no"; any other answer, "maybe" and "probably"
    included, is taken as support. *)
Theorem canPlayH264_iff env s :
  fst (canPlayH264 env s) = true
  <-> exists answer,
        canPlayType (video_of env s) = Some answer
        /\ answer (JS.codecs "video/mp4" "avc1.42E01E, mp4a.40.2") <> EmptyString
        /\ answer (JS.codecs "video/mp4" "avc1.42E01E, mp4a.40.2") <> "no".
Proof.
  assert (E : fst (canPlayH264 env s)
              = has_canPlayType (video_of env s)
                && plays (video_of env s) (JS.codecs "video/mp4" "avc1.42E01E, mp4a.40.2")).
  { unfold canPlayH264, bind, getVideoTestElement, video_of, ret.
    destruct (videoTestElement s); reflexivity. }
  rewrite E, <- plays_iff. unfold has_canPlayType, plays.
  destruct (canPlayType (video_of env s)); cbn; tauto.
Qed.

(* ------------------------------------------------------------------ *)
(** *** The platform version *)

Lemma skip_ci_prefix pat s rest :
  JS.skip_ci pat s = Some rest -> prefix pat (JS.toLowerCase s) = true.
Proof.
  revert s. induction pat as [| p pat IH]; intros s H; [destruct s; reflexivity |].
  destruct s as [| c s]; cbn in *; [discriminate |].
  destruct (Ascii.eqb p (JS.lower_char c)) eqn:E; [| discriminate].
  apply Ascii.eqb_eq in E. subst p.
  destruct (ascii_dec (JS.lower_char c) (JS.lower_char c)); [apply IH, H | congruence].
Qed.

Lemma match_here_prefix s m :
  JS.match_here s = Some m -> prefix "tizen" (JS.toLowerCase s) = true.
Proof.
  unfold JS.match_here. destruct (JS.skip_ci "tizen" s) as [rest |] eqn:E; [| discriminate].
  intros _. exact (skip_ci_prefix _ _ _ E).
Qed.

Lemma indexOf_from_found s : forall i m,
  0 <= i ->
  JS.match_TizenVersion s = Some m ->
  0 <= JS.indexOf_from i (JS.toLowerCase s) "tizen".
Proof.
  induction s as [| c s IH]; intros i m Hi Hm.
  - cbn in Hm. discriminate.
  - cbn [JS.match_TizenVersion] in Hm.
    destruct (JS.match_here (String c s)) as [m' |] eqn:E.
    + apply match_here_prefix in E.
      cbn [JS.toLowerCase JS.indexOf_from] in *. rewrite E. exact Hi.
    + cbn [JS.toLowerCase JS.indexOf_from].
      destruct (prefix "tizen" (String (JS.lower_char c) (JS.toLowerCase s)));
        [exact Hi |].
      apply (IH (i + 1) m); [lia | exact Hm].
Qed.

Lemma matched_is_tizen env m :
  JS.match_TizenVersion (userAgent env) = Some m -> isTizen env = true.
Proof.
  intros Hm. unfold isTizen, JS.indexOf.
  pose proof (indexOf_from_found (userAgent env) 0 m (Z.le_refl 0) Hm) as H.
  destruct (JS.indexOf_from 0 (JS.toLowerCase (userAgent env)) "tizen" =? -1) eqn:E.
  - apply Z.eqb_eq in E. lia.
  - apply orb_true_r.
Qed.

Lemma isDigit_value c : JS.isDigit c = true -> 0 <= Z.of_nat (nat_of_ascii c) - 48.
Proof.
  unfold JS.isDigit, JS.in_range. cbv zeta. intros H.
  apply andb_true_iff in H as [H _]. apply Nat.leb_le in H. lia.
Qed.

Lemma parseInt_from_nonneg s : forall acc, 0 <= acc -> 0 <= JS.parseInt_from acc s.
Proof.
  induction s as [| c s IH]; intros acc Hacc; cbn [JS.parseInt_from]; [exact Hacc |].
  destruct (JS.isDigit c) eqn:E; [| exact Hacc].
  apply IH. pose proof (isDigit_value c E). lia.
Qed.

Lemma version_sum_nonneg a b :
  0 <= a -> 0 <= b -> (0 <= inject_Z a + inject_Z b / 10)%Q.
Proof.
  intros Ha Hb. unfold Qle, Qplus, Qdiv, Qmult, Qinv, inject_Z. cbn. lia.
Qed.

Lemma geq_weaken (a b v : Q) :
  JS.geq v a = true -> (b <= a)%Q -> JS.geq v b = true.
Proof.
  unfold JS.geq. rewrite !Qle_bool_iff. intros H1 H2. eapply Qle_trans; eassumption.
Qed.

Lemma lt_weaken (a b v : Q) :
  JS.geq v a = false -> (a <= b)%Q -> JS.geq v b = false.
Proof.
  intros H1 H2. destruct (JS.geq v b) eqn:E; [| reflexivity].
  rewrite (geq_weaken b a v E H2) in H1. discriminate.
Qed.

Lemma fst_getVideoTestElement env s :
  fst (getVideoTestElement env s) = video_of env s.
Proof. unfold getVideoTestElement, video_of. destruct (videoTestElement s); reflexivity. Qed.

(** Reading off the value of a probe: through [bind], the cached element
    and the branches. *)
Ltac probe_value :=
  repeat first
    [ rewrite bind_run
    | rewrite fst_getVideoTestElement
    | rewrite fst_if ];
  unfold ret; cbn [fst].

(** X2. A user agent in which "Tizen", white space and "major.minor" can
    be found is always classified as Tizen, so the version it carries is
    the one returned: major + minor/10. *)
Theorem version_in_user_agent_is_used env major minor :
  JS.match_TizenVersion (userAgent env) = Some (major, minor) ->
  isTizen env = true
  /\ getTizenVersion env
     = (inject_Z (JS.parseInt major) + inject_Z (JS.parseInt minor) / 10)%Q.
Proof.
  intros Hm. pose proof (matched_is_tizen env _ Hm) as Ht. split; [exact Ht |].
  unfold getTizenVersion. rewrite Ht, Hm. reflexivity.
Qed.

Lemma version_in_user_agent_is_used_witness :
  isTizen
    {| tizen_defined := false;
       userAgent := "Mozilla/5.0 (SMART-TV; Linux; TIZEN 6.5) AppleWebKit/537.36";
       createElement := fun _ => Examples.element_playing [];
       window_MediaSource := false;
       webapis := None |} = true
  /\ getTizenVersion
       {| tizen_defined := false;
          userAgent := "Mozilla/5.0 (SMART-TV; Linux; TIZEN 6.5) AppleWebKit/537.36";
          createElement := fun _ => Examples.element_playing [];
          window_MediaSource := false;
          webapis := None |}
     = (inject_Z (JS.parseInt "6") + inject_Z (JS.parseInt "5") / 10)%Q.
Proof.
  apply version_in_user_agent_is_used. vm_compute. reflexivity.
Defined.

(** X3. The version is never negative.  On a Tizen platform whose user
    agent carries no parsable version it is 4.0, and with it DTS is
    declared unsupported, the H.264 level ceiling is 51, HLS is delivered
    in TS segments rather than fragmented MP4, and AV1 is left to the
    two queries. *)
Theorem version_default_on_tizen env s :
  (0 <= getTizenVersion env)%Q
  /\ (isTizen env = true ->
      JS.match_TizenVersion (userAgent env) = None ->
      getTizenVersion env = 4.0%Q
      /\ fst (canPlayDts env s) = false
      /\ fst (getMaxH264Level env s) = 51
      /\ canPlayNativeHlsInFmp4 env = false
      /\ fst (canPlayAv1 env s)
         = has_canPlayType (video_of env s)
           && plays (video_of env s) (JS.codecs "video/mp4" "av01.0.15M.08")
           && plays (video_of env s) (JS.codecs "video/mp4" "av01.0.15M.10")).
Proof.
  split.
  - unfold getTizenVersion. destruct (negb (isTizen env)); [discriminate |].
    destruct (JS.match_TizenVersion (userAgent env)) as [[major minor] |]; [| discriminate].
    apply version_sum_nonneg; apply parseInt_from_nonneg; lia.
  - intros Ht Hm.
    assert (Hv : getTizenVersion env = 4.0%Q)
      by (unfold getTizenVersion; rewrite Ht, Hm; reflexivity).
    split; [exact Hv |].
    unfold canPlayDts, getMaxH264Level, canPlayNativeHlsInFmp4, canPlayAv1.
    cbv zeta. rewrite Hv, Ht.
    change (JS.geq 4.0 4) with true. change (JS.geq 4.0 5) with false.
    change (JS.geq 4.0 5.5) with false.
    probe_value. repeat split; reflexivity.
Qed.

Lemma version_default_on_tizen_witness :
  getTizenVersion
    {| tizen_defined := true;
       userAgent := "Mozilla/5.0 (SMART-TV; Linux)";
       createElement := fun _ => Examples.element_playing [];
       window_MediaSource := false;
       webapis := None |} = 4.0%Q.
Proof.
  refine (proj1 (proj2 (version_default_on_tizen
            {| tizen_defined := true;
               userAgent := "Mozilla/5.0 (SMART-TV; Linux)";
               createElement := fun _ => Examples.element_playing [];
               window_MediaSource := false;
               webapis := None |} fresh) _ _)); reflexivity.
Defined.

Lemma high_version_is_tizen env (a : Q) :
  (0 < a)%Q -> JS.geq (getTizenVersion env) a = true -> isTizen env = true.
Proof.
  intros Ha H. destruct (isTizen env) eqn:Et; [reflexivity |].
  rewrite (nontizen_version env Et) in H.
  unfold JS.geq in H. apply Qle_bool_iff in H.
  exfalso. apply (Qlt_not_le _ _ Ha H).
Qed.

(** X4. From version 5.5 on - which only a Tizen platform reaches - the
    thresholds line up: AV1 is declared playable without a query, DTS is
    declared unsupported, the H.264 level ceiling is 52 and HLS uses
    fragmented MP4. *)
Theorem version_5_5_tier env s :
  JS.geq (getTizenVersion env) 5.5 = true ->
  isTizen env = true
  /\ fst (canPlayAv1 env s) = true
  /\ fst (canPlayDts env s) = false
  /\ fst (getMaxH264Level env s) = 52
  /\ canPlayNativeHlsInFmp4 env = true.
Proof.
  intros H.
  assert (H4 : JS.geq (getTizenVersion env) 4 = true)
    by (apply (geq_weaken 5.5 4 _ H); discriminate).
  assert (H5 : JS.geq (getTizenVersion env) 5 = true)
    by (apply (geq_weaken 5.5 5 _ H); discriminate).
  split; [apply (high_version_is_tizen env 5.5); [reflexivity | exact H] |].
  unfold canPlayAv1, canPlayDts, getMaxH264Level, canPlayNativeHlsInFmp4.
  cbv zeta. rewrite H, H4, H5. probe_value. repeat split; reflexivity.
Qed.

Lemma version_5_5_tier_witness :
  fst (canPlayDts Examples.tizen_5_5_fhd fresh) = false.
Proof.
  refine (proj1 (proj2 (proj2 (version_5_5_tier Examples.tizen_5_5_fhd fresh _)))).
  reflexivity.
Defined.

(* ------------------------------------------------------------------ *)
(** *** Level ceilings, the HLS memo and the choice of HLS player *)

(** X5. The H.264 level ceiling is 42, 51 or 52 - 52 exactly from
    version 5 on - and the HEVC one 120, 153, 183 or 186; the HEVC
    profiles are "main" or "main|main 10".  On Tizen the ceilings are at
    least 51 and 153 and the profiles include main 10, whatever the
    queries answer. *)
Theorem level_ceilings env s :
  In (fst (getMaxH264Level env s)) [42; 51; 52]
  /\ (fst (getMaxH264Level env s) = 52 <-> JS.geq (getTizenVersion env) 5 = true)
  /\ In (fst (getMaxHevcLevel env s)) [120; 153; 183; 186]
  /\ In (fst (getHevcProfiles env s)) ["main"; "main|main 10"]
  /\ (isTizen env = true ->
      51 <= fst (getMaxH264Level env s)
      /\ 153 <= fst (getMaxHevcLevel env s)
      /\ fst (getHevcProfiles env s) = "main|main 10").
Proof.
  unfold getMaxH264Level, getMaxHevcLevel, getHevcProfiles. cbv zeta. probe_value.
  repeat match goal with
         | |- context [if ?c then _ else _] => destruct c eqn:?
         end; cbn [In];
    repeat split; try discriminate; try lia; auto 10; intros; try discriminate; lia.
Qed.

Lemma level_ceilings_witness :
  51 <= fst (getMaxH264Level Examples.tizen_3_0_throwing fresh)
  /\ 153 <= fst (getMaxHevcLevel Examples.tizen_3_0_throwing fresh)
  /\ fst (getHevcProfiles Examples.tizen_3_0_throwing fresh) = "main|main 10".
Proof.
  apply (proj2 (proj2 (proj2 (proj2
           (level_ceilings Examples.tizen_3_0_throwing fresh))))).
  reflexivity.
Defined.

(** X6. [canPlayHls] answers once: after a call the memo holds the
    answer, and every later call returns it and leaves the state alone,
    even on a platform that has changed in the meantime. *)
Theorem canPlayHls_memo env env' s :
  _canPlayHls (snd (canPlayHls env s)) = Some (fst (canPlayHls env s))
  /\ canPlayHls env' (snd (canPlayHls env s))
     = (fst (canPlayHls env s), snd (canPlayHls env s)).
Proof.
  destruct (canPlayHls env s) as [b s1] eqn:E. cbn [fst snd].
  unfold canPlayHls in E. destruct (_canPlayHls s) as [v |] eqn:Ec.
  - inversion E; subst. split; [exact Ec |].
    unfold canPlayHls. rewrite Ec. reflexivity.
  - destruct (canPlayNativeHls env s) as [native s2]. inversion E; subst.
    split; reflexivity.
Qed.

Lemma fst_canPlayNativeHls env s :
  fst (canPlayNativeHls env s)
  = isTizen env
    || has_canPlayType (video_of env s)
       && (plays (video_of env s) "application/x-mpegURL"
           || plays (video_of env s) "application/vnd.apple.mpegURL").
Proof.
  unfold canPlayNativeHls. destruct (isTizen env); [reflexivity |].
  probe_value. reflexivity.
Qed.

(** X7. With an empty memo, HLS is playable exactly when the native
    player or hls.js is used; hls.js is chosen only off Tizen, with Media
    Source Extensions present and no native HLS, so never together with
    the native player. *)
Theorem hls_player_choice env s :
  _canPlayHls s = None ->
  fst (canPlayHls env s)
  = fst (canPlayNativeHls env s) || fst (shouldUseHlsJs env s)
  /\ (fst (shouldUseHlsJs env s) = true ->
      isTizen env = false
      /\ window_MediaSource env = true
      /\ fst (canPlayNativeHls env s) = false).
Proof.
  intros Hc.
  assert (E1 : fst (canPlayHls env s)
               = fst (canPlayNativeHls env s) || canPlayHlsWithMSE env).
  { unfold canPlayHls. rewrite Hc.
    destruct (canPlayNativeHls env s); reflexivity. }
  assert (E2 : fst (shouldUseHlsJs env s)
               = negb (isTizen env) && window_MediaSource env
                 && negb (fst (canPlayNativeHls env s))).
  { unfold shouldUseHlsJs.
    destruct (isTizen env) eqn:Et; [reflexivity |].
    destruct (window_MediaSource env); [| reflexivity].
    rewrite bind_run. destruct (fst (canPlayNativeHls env s)); reflexivity. }
  rewrite E1, E2. unfold canPlayHlsWithMSE.
  rewrite fst_canPlayNativeHls.
  destruct (isTizen env), (window_MediaSource env),
    (has_canPlayType (video_of env s)
     && (plays (video_of env s) "application/x-mpegURL"
         || plays (video_of env s) "application/vnd.apple.mpegURL"));
    cbn; split; try reflexivity; intros; try discriminate; auto.
Qed.

Lemma hls_player_choice_witness :
  fst (canPlayHls Examples.h264_only_browser fresh)
  = fst (canPlayNativeHls Examples.h264_only_browser fresh)
    || fst (shouldUseHlsJs Examples.h264_only_browser fresh).
Proof.
  apply (proj1 (hls_player_choice Examples.h264_only_browser fresh eq_refl)).
Defined.

(** X8. A format name for which [canPlayAudioFormat] has no MIME type is
    playable only on Tizen and only when it is "asf" or "wma"; any other
    unknown name is refused without asking the browser. *)
Theorem canPlayAudioFormat_unknown env format :
  mem format known_audio_formats = false ->
  canPlayAudioFormat env format
  = isTizen env && (String.eqb format "asf" || String.eqb format "wma").
Proof.
  unfold mem, known_audio_formats. cbn [existsb]. intros H.
  repeat (apply orb_false_iff in H; destruct H as [? H]).
  unfold canPlayAudioFormat, typeString_of.
  repeat match goal with E : String.eqb format _ = false |- _ => rewrite E; clear E end.
  cbn [orb]. destruct (isTizen env && (String.eqb format "asf" || String.eqb format "wma"));
    reflexivity.
Qed.

Lemma canPlayAudioFormat_unknown_witness :
  canPlayAudioFormat Examples.tizen_5_5_fhd "wma"
  = isTizen Examples.tizen_5_5_fhd && (String.eqb "wma" "asf" || String.eqb "wma" "wma").
Proof.
  apply canPlayAudioFormat_unknown. reflexivity.
Defined.

(* ------------------------------------------------------------------ *)
(** *** What a build leaves in the module's variables *)

Lemma quiet_ret {A : Type} (a : A) : quiet (ret a).
Proof. intros s. cbn. auto. Qed.

Lemma quiet_bind {A B : Type} (m : M A) (k : A -> M B) :
  quiet m -> (forall a, quiet (k a)) -> quiet (bind m k).
Proof.
  intros Hm Hk s. rewrite bind_run.
  destruct (Hm s) as (Hc & Hv & Hh).
  destruct (Hk (fst (m s)) (snd (m s))) as (Hc' & Hv' & Hh').
  split; [congruence |]. split; auto.
Qed.

Lemma quiet_if {A : Type} (c : bool) (m1 m2 : M A) :
  quiet m1 -> quiet m2 -> quiet (if c then m1 else m2).
Proof. destruct c; auto. Qed.

Lemma quiet_getVideoTestElement env : quiet (getVideoTestElement env).
Proof.
  intros s. unfold getVideoTestElement.
  destruct (videoTestElement s) eqn:E; cbn; rewrite ?E; repeat split; auto; discriminate.
Qed.

Ltac quiet_step :=
  first
    [ apply quiet_ret
    | apply quiet_getVideoTestElement
    | apply quiet_if
    | apply quiet_bind; [| intros ?]
    | lazymatch goal with
      | |- quiet (let x := ?e in @?b x) =>
          change (let x := e in quiet (b x)); intro; cbv beta
      end ].

Lemma quiet_canPlayNativeHls env : quiet (canPlayNativeHls env).
Proof. unfold canPlayNativeHls. repeat quiet_step. Qed.

Lemma quiet_canPlayHls env : quiet (canPlayHls env).
Proof.
  intros s. unfold canPlayHls.
  destruct (_canPlayHls s) eqn:E; [cbn; rewrite E; repeat split; auto; discriminate |].
  destruct (quiet_canPlayNativeHls env s) as (Hc & Hv & _).
  destruct (canPlayNativeHls env s) as [native s1]. cbn [fst snd] in *.
  cbn. repeat split; auto; discriminate.
Qed.

Lemma quiet_canPlayH264 env : quiet (canPlayH264 env).
Proof. unfold canPlayH264. repeat quiet_step. Qed.

Lemma quiet_canPlayHevc env : quiet (canPlayHevc env).
Proof. unfold canPlayHevc. repeat quiet_step. Qed.

Lemma quiet_canPlayAv1 env : quiet (canPlayAv1 env).
Proof. unfold canPlayAv1. cbv zeta. repeat quiet_step. Qed.

Lemma quiet_supportsAc3 env : quiet (supportsAc3 env).
Proof. unfold supportsAc3. repeat quiet_step. Qed.

Lemma quiet_supportsEac3 env : quiet (supportsEac3 env).
Proof. unfold supportsEac3. repeat quiet_step. Qed.

Lemma quiet_canPlayDts env : quiet (canPlayDts env).
Proof. unfold canPlayDts. cbv zeta. repeat quiet_step. Qed.

Lemma quiet_canPlayMkv env : quiet (canPlayMkv env).
Proof. unfold canPlayMkv. repeat quiet_step. Qed.

Lemma quiet_getMaxH264Level env : quiet (getMaxH264Level env).
Proof. unfold getMaxH264Level. cbv zeta. repeat quiet_step. Qed.

Lemma quiet_getMaxHevcLevel env : quiet (getMaxHevcLevel env).
Proof. unfold getMaxHevcLevel. repeat quiet_step. Qed.

Lemma quiet_getHevcProfiles env : quiet (getHevcProfiles env).
Proof. unfold getHevcProfiles. repeat quiet_step. Qed.

(** The statements of a build after the bitrate probe are all quiet. *)
Ltac quiet_probe :=
  first
    [ apply quiet_canPlayH264 | apply quiet_canPlayHevc | apply quiet_canPlayAv1
    | apply quiet_supportsAc3 | apply quiet_supportsEac3 | apply quiet_canPlayDts
    | apply quiet_canPlayHls | apply quiet_canPlayMkv
    | apply quiet_getMaxH264Level | apply quiet_getMaxHevcLevel
    | apply quiet_getHevcProfiles
    | quiet_step ].

(** The bitrate probe touches neither cache and logs [panel_log]. *)
Lemma getGlobalMaxVideoBitrate_state env s :
  snd (getGlobalMaxVideoBitrate env s)
  = {| _canPlayHls := _canPlayHls s;
       videoTestElement := videoTestElement s;
       console := console s ++ panel_log env |}.
Proof.
  unfold getGlobalMaxVideoBitrate, panel_log.
  destruct (isTizen env).
  - destruct (panel_limit env) as [[r |] | e]; cbn; rewrite ?app_nil_r;
      destruct s; reflexivity.
  - cbn. rewrite app_nil_r. destruct s; reflexivity.
Qed.

Lemma logs_getGlobalMaxVideoBitrate env : logs (panel_log env) (getGlobalMaxVideoBitrate env).
Proof. intros s. rewrite getGlobalMaxVideoBitrate_state. reflexivity. Qed.

Lemma logs_bind {A B : Type} l (m : M A) (k : A -> M B) :
  logs l m -> (forall a, quiet (k a)) -> logs l (bind m k).
Proof.
  intros Hm Hk s. rewrite bind_run.
  destruct (Hk (fst (m s)) (snd (m s))) as (Hc & _). rewrite Hc. apply Hm.
Qed.

Lemma sets_video_here {A B : Type} (m : M A) (k : A -> M B) :
  sets_video m -> (forall a, quiet (k a)) -> sets_video (bind m k).
Proof.
  intros Hm Hk s. rewrite bind_run.
  destruct (Hk (fst (m s)) (snd (m s))) as (_ & Hv & _). apply Hv, Hm.
Qed.

Lemma sets_video_later {A B : Type} (m : M A) (k : A -> M B) :
  (forall a, sets_video (k a)) -> sets_video (bind m k).
Proof. intros Hk s. rewrite bind_run. apply Hk. Qed.

Lemma sets_hls_here {A B : Type} (m : M A) (k : A -> M B) :
  sets_hls m -> (forall a, quiet (k a)) -> sets_hls (bind m k).
Proof.
  intros Hm Hk s. rewrite bind_run.
  destruct (Hk (fst (m s)) (snd (m s))) as (_ & _ & Hh). apply Hh, Hm.
Qed.

Lemma sets_hls_later {A B : Type} (m : M A) (k : A -> M B) :
  (forall a, sets_hls (k a)) -> sets_hls (bind m k).
Proof. intros Hk s. rewrite bind_run. apply Hk. Qed.

Lemma sets_video_canPlayH264 env : sets_video (canPlayH264 env).
Proof.
  intros s. unfold canPlayH264. rewrite bind_run. cbn [ret snd].
  unfold getVideoTestElement. destruct (videoTestElement s) eqn:E; cbn; rewrite ?E; discriminate.
Qed.

Lemma sets_hls_canPlayHls env : sets_hls (canPlayHls env).
Proof.
  intros s. unfold canPlayHls. destruct (_canPlayHls s) eqn:E.
  - cbn. rewrite E. discriminate.
  - destruct (canPlayNativeHls env s). cbn. discriminate.
Qed.

Ltac pull_let P :=
  lazymatch goal with
  | |- P _ (let x := ?e in @?b x) =>
      change (let x := e in P _ (b x)); intro; cbv beta
  end.

Lemma logs_getDeviceProfile env options :
  logs (panel_log env) (getDeviceProfile env options).
Proof.
  cbv beta delta [getDeviceProfile].
  repeat lazymatch goal with
         | |- logs ?l (let x := ?e in @?b x) =>
             change (let x := e in logs l (b x)); intro; cbv beta
         end.
  apply logs_bind; [apply logs_getGlobalMaxVideoBitrate | intros ?].
  repeat quiet_probe.
Qed.

Lemma sets_video_getDeviceProfile env options :
  sets_video (getDeviceProfile env options).
Proof.
  cbv beta delta [getDeviceProfile].
  repeat first
    [ lazymatch goal with
      | |- sets_video (let x := ?e in @?b x) =>
          change (let x := e in sets_video (b x)); intro; cbv beta
      end
    | apply sets_video_here;
      [ apply sets_video_canPlayH264 | intros ?; solve [repeat quiet_probe] ]
    | apply sets_video_later; intros ? ].
Qed.

Lemma sets_hls_getDeviceProfile env options :
  sets_hls (getDeviceProfile env options).
Proof.
  cbv beta delta [getDeviceProfile].
  repeat first
    [ lazymatch goal with
      | |- sets_hls (let x := ?e in @?b x) =>
          change (let x := e in sets_hls (b x)); intro; cbv beta
      end
    | apply sets_hls_here;
      [ apply sets_hls_canPlayHls | intros ?; solve [repeat quiet_probe] ]
    | apply sets_hls_later; intros ? ].
Qed.

(** X9. The state a build ends in: the video test element is cached - the
    one already there, or a new one -, the HLS memo holds the answer the
    build used, and the console has one more line exactly when the
    platform is Tizen and the panel query threw.  Whatever was cached
    before is still there. *)
Theorem build_final_state env options s :
  snd (getDeviceProfile env options s)
  = {| _canPlayHls := Some (hls_of env s);
       videoTestElement := Some (video_of env s);
       console := console s ++ panel_log env |}.
Proof.
  destruct (proj1 (stable_getDeviceProfile env options) s) as [Hv Hh].
  pose proof (logs_getDeviceProfile env options s) as Hl.
  pose proof (sets_video_getDeviceProfile env options s) as Hsv.
  pose proof (sets_hls_getDeviceProfile env options s) as Hsh.
  destruct (snd (getDeviceProfile env options s)) as [c v l].
  unfold video_of at 1 in Hv. unfold hls_of at 1 in Hh. cbn in *.
  destruct v as [v |]; [| congruence]. destruct c as [c |]; [| congruence].
  rewrite Hv, Hh, Hl. reflexivity.
Qed.

(* ------------------------------------------------------------------ *)
(** *** How the rules of one document hang together *)

Lemma filter_container_audio_rules container (c : string -> bool) formats :
  mem container formats = false ->
  filter (in_container container)
    (flat_map (fun format => opt (c format) [audio_rule format]) formats) = [].
Proof.
  induction formats as [| format formats IH]; [reflexivity |].
  cbn [mem existsb]. intros H. apply orb_false_iff in H as [Hf H].
  cbn [flat_map]. rewrite filter_app, (IH H), app_nil_r.
  destruct (c format); [| reflexivity].
  cbn [opt filter]. unfold in_container. cbn [audio_rule DirectPlayProfile.Container].
  rewrite String.eqb_sym, Hf. reflexivity.
Qed.

Lemma filter_hls_audio_transcodings (c : string -> bool) channels formats :
  filter over_hls
    (flat_map (fun format => opt (c format) [audio_transcoding format channels]) formats)
  = [].
Proof.
  induction formats as [| format formats IH]; [reflexivity |].
  cbn [flat_map]. rewrite filter_app, IH. destruct (c format); reflexivity.
Qed.

Lemma hls_direct_play F :
  filter (in_container "hls") (directPlayProfiles_of F)
  = opt (f_hls F && JS.truthy_length (hlsVideoCodecs_of F))
      [video_rule "hls" (JS.join (hlsVideoCodecs_of F) ",") (JS.join (hlsAudioCodecs_of F) ",")].
Proof.
  unfold directPlayProfiles_of. rewrite !filter_app.
  rewrite filter_container_audio_rules by reflexivity.
  destruct (JS.truthy_length (mp4VideoCodecs_of F)),
    (f_mkv F && JS.truthy_length (mkvVideoCodecs_of F)), (f_ts F),
    (f_hls F && JS.truthy_length (hlsVideoCodecs_of F)); reflexivity.
Qed.

Lemma hls_transcoding_target F :
  filter over_hls (transcodingProfiles_of F)
  = opt (f_hls F && JS.truthy_length (hlsVideoCodecs_of F))
      [hls_transcoding (if f_fmp4 F then "mp4" else "ts")
         (JS.join (hlsAudioCodecs_of F) ",") (JS.join (hlsVideoCodecs_of F) ",")
         (JS.toString (f_physicalAudioChannels F))].
Proof.
  unfold transcodingProfiles_of. rewrite filter_app, filter_hls_audio_transcodings.
  destruct (f_hls F && JS.truthy_length (hlsVideoCodecs_of F)); reflexivity.
Qed.

Lemma channels_printed env :
  JS.toString (getPhysicalAudioChannels env) = (if isTizen env then "6" else "2").
Proof. unfold getPhysicalAudioChannels. destruct (isTizen env); reflexivity. Qed.

Lemma hlsVideoCodecs_offered env s :
  JS.truthy_length (hlsVideoCodecs_of (facts env s))
  = fst (canPlayH264 env s) || isTizen env.
Proof.
  unfold hlsVideoCodecs_of. cbn [facts f_h264 f_hevc f_isTizen].
  destruct (isTizen env) eqn:Et.
  - rewrite (tizen_canPlayHevc env s Et). destruct (fst (canPlayH264 env s)); reflexivity.
  - destruct (fst (canPlayH264 env s)), (fst (canPlayHevc env s)); reflexivity.
Qed.

(** X10. HLS is offered for direct play exactly when it is offered as a
    transcoding target: when HLS is playable and H.264 is, or the
    platform is Tizen.  There is then one rule of each kind, both with
    the same video and audio codec lists; hevc is among the video codecs
    only on Tizen; the segments are fragmented MP4 from version 5 on and
    transport stream before. *)
Theorem hls_rules_go_together env options s :
  let p := fst (getDeviceProfile env options s) in
  let hls_rules := filter (in_container "hls") (DirectPlayProfiles p) in
  let hls_targets := filter over_hls (TranscodingProfiles p) in
  if fst (canPlayHls env s) && (fst (canPlayH264 env s) || isTizen env)
  then exists videoCodec audioCodec,
         hls_rules = [video_rule "hls" videoCodec audioCodec]
         /\ hls_targets
            = [hls_transcoding (if JS.geq (getTizenVersion env) 5 then "mp4" else "ts")
                 audioCodec videoCodec (if isTizen env then "6" else "2")]
         /\ (In "hevc" (codec_list videoCodec) -> isTizen env = true)
  else hls_rules = [] /\ hls_targets = [].
Proof.
  intros p hls_rules hls_targets. subst hls_rules hls_targets p.
  rewrite getDeviceProfile_assemble.
  cbn [assemble DirectPlayProfiles TranscodingProfiles].
  rewrite hls_direct_play, hls_transcoding_target.
  pose proof (hlsVideoCodecs_offered env s) as Hn.
  remember (facts env s) as F eqn:EF.
  assert (Ehls : f_hls F = fst (canPlayHls env s)) by (subst F; reflexivity).
  assert (Efmp4 : f_fmp4 F = JS.geq (getTizenVersion env) 5) by (subst F; reflexivity).
  assert (Ech : JS.toString (f_physicalAudioChannels F) = if isTizen env then "6" else "2")
    by (subst F; apply channels_printed).
  assert (Et : f_isTizen F = isTizen env) by (subst F; reflexivity).
  rewrite Hn, Ehls, Efmp4, Ech.
  destruct (fst (canPlayHls env s) && (fst (canPlayH264 env s) || isTizen env)) eqn:E;
    [| split; reflexivity].
  apply andb_true_iff in E as [_ E]. rewrite <- Hn in E.
  exists (JS.join (hlsVideoCodecs_of F) ","), (JS.join (hlsAudioCodecs_of F) ",").
  split; [reflexivity |]. split; [reflexivity |].
  rewrite (codec_list_hlsVideoCodecs F E). unfold hlsVideoCodecs_of. intros H.
  rewrite <- Et. apply in_app_or in H as [H | H].
  - apply in_opt in H as [_ [H | []]]. discriminate H.
  - apply in_opt in H as [_ H]. apply in_opt in H as [Ht _]. exact Ht.
Qed.

(** X11. One channel count is used throughout a document: every
    transcoding rule caps the audio channels at the value of the single
    audio-track codec rule, 6 on Tizen and 2 elsewhere. *)
Theorem audio_channels_agree env options s :
  let p := fst (getDeviceProfile env options s) in
  let channels := if isTizen env then "6" else "2" in
  (forall t, In t (TranscodingProfiles p) -> TranscodingProfile.MaxAudioChannels t = channels)
  /\ filter on_audio_track (CodecProfiles p) = [audio_channel_rule channels].
Proof.
  intros p channels. subst p channels. rewrite getDeviceProfile_assemble.
  cbn [assemble TranscodingProfiles CodecProfiles].
  rewrite <- (channels_printed env). split.
  - intros t Ht. apply in_transcodingProfiles in Ht.
    destruct Ht as [[-> _] | (format & -> & _)]; reflexivity.
  - unfold codecProfiles_of, globalRule_of, global_rules.
    cbn [facts f_physicalAudioChannels f_av1 f_globalMaxVideoBitrate].
    rewrite !filter_app.
    destruct (fst (canPlayAv1 env s)); cbn [opt filter app];
      destruct (fst (getGlobalMaxVideoBitrate env s)) as [limit |]; cbn [opt filter app];
      try destruct (JS.truthy_number limit); reflexivity.
Qed.

Lemma dts_among_videoAudioCodecs F codec :
  In codec ["dca"; "dts"] -> In codec (videoAudioCodecs_of F) <-> f_dts F = true.
Proof.
  intros Hc. unfold videoAudioCodecs_of. rewrite !in_app_iff, !in_opt. cbn [In].
  destruct Hc as [<- | [<- | []]]; split; intros H;
    try (right; right; right; left; split; [exact H | auto]);
    repeat match goal with
           | H : _ \/ _ |- _ => destruct H as [H | H]
           | H : _ /\ _ |- _ => destruct H as [? H]
           end; try discriminate; try contradiction; assumption.
Qed.

Lemma no_dts_among_hlsAudioCodecs F codec :
  In codec ["dca"; "dts"] -> ~ In codec (hlsAudioCodecs_of F).
Proof.
  intros Hc. unfold hlsAudioCodecs_of. rewrite !in_app_iff, !in_opt. cbn [In].
  destruct Hc as [<- | [<- | []]]; intros H;
    repeat match goal with
           | H : _ \/ _ |- _ => destruct H as [H | H]
           | H : _ /\ _ |- _ => destruct H as [? H]
           end; try discriminate; contradiction.
Qed.

Lemma dts_needs_old_version env s :
  fst (canPlayDts env s) = true -> JS.geq (getTizenVersion env) 4 = false.
Proof.
  unfold canPlayDts. cbv zeta. destruct (JS.geq (getTizenVersion env) 4); [| reflexivity].
  cbn. discriminate.
Qed.

(** X12. DTS in a document: "dts" and "dca" are listed together or not at
    all; they are listed only when the DTS probe succeeded, which needs a
    version below 4; the HLS rule and the transcoding rules never list
    them. *)
Theorem dts_policy env options s :
  let p := fst (getDeviceProfile env options s) in
  (forall r audioCodec,
     In r (DirectPlayProfiles p) ->
     DirectPlayProfile.AudioCodec r = Some audioCodec ->
     (In "dts" (codec_list audioCodec) <-> In "dca" (codec_list audioCodec))
     /\ (In "dts" (codec_list audioCodec) ->
         fst (canPlayDts env s) = true
         /\ JS.geq (getTizenVersion env) 4 = false
         /\ DirectPlayProfile.Container r <> "hls"))
  /\ (forall t,
        In t (TranscodingProfiles p) ->
        ~ In "dts" (codec_list (TranscodingProfile.AudioCodec t))
        /\ ~ In "dca" (codec_list (TranscodingProfile.AudioCodec t))).
Proof.
  intros p. subst p. rewrite getDeviceProfile_assemble.
  cbn [assemble DirectPlayProfiles TranscodingProfiles].
  assert (Hdts : In "dts" ["dca"; "dts"]) by (cbn; auto).
  assert (Hdca : In "dca" ["dca"; "dts"]) by (cbn; auto).
  split.
  - intros r audioCodec Hr Ha. apply in_directPlayProfiles in Hr.
    destruct Hr as [[-> _] | [[-> _] | [[-> _] | [[-> _] | (format & -> & _)]]]];
      cbn [video_rule audio_rule DirectPlayProfile.AudioCodec
             DirectPlayProfile.Container] in *; try discriminate Ha;
      match type of Ha with
      | Some ?x = Some _ => assert (E : x = audioCodec) by congruence; rewrite <- E
      end;
      rewrite ?codec_list_videoAudioCodecs, ?codec_list_hlsAudioCodecs.
    1-3: rewrite (dts_among_videoAudioCodecs _ "dts" Hdts),
           (dts_among_videoAudioCodecs _ "dca" Hdca);
         (split; [reflexivity |]); intros Hd; cbn [facts f_dts] in Hd;
         (split; [exact Hd |]); (split; [apply (dts_needs_old_version env s Hd) | discriminate]).
    split.
    + split; intros H; exfalso;
        [apply (no_dts_among_hlsAudioCodecs _ "dts" Hdts H)
        | apply (no_dts_among_hlsAudioCodecs _ "dca" Hdca H)].
    + intros H. exfalso. apply (no_dts_among_hlsAudioCodecs _ "dts" Hdts H).
  - intros t Ht. apply in_transcodingProfiles in Ht.
    destruct Ht as [[-> _] | (format & -> & _ & Hf)];
      cbn [hls_transcoding audio_transcoding TranscodingProfile.AudioCodec].
    + rewrite codec_list_hlsAudioCodecs.
      split; apply no_dts_among_hlsAudioCodecs; assumption.
    + cbn [In] in Hf. destruct Hf as [<- | [<- | [<- | [<- | []]]]];
        split; cbn; intros [H | []]; discriminate H.
Qed.

(* ------------------------------------------------------------------ *)
(** *** The details page *)

(** The class of a picture of at least 850 x 460, tier by tier. *)
Lemma resolution_rank_tiers w h :
  850 <= w -> 460 <= h ->
  let name := Details.getResolutionName w h in
  In name ["4K"; "1440P"; "1080P"; "720P"; "576P"; "480P"]
  /\ (1 <= resolution_rank name <= 6)%nat
  /\ ((6 <= resolution_rank name)%nat <-> 3800 <= w /\ 2100 <= h)
  /\ ((5 <= resolution_rank name)%nat <-> 2500 <= w /\ 1400 <= h)
  /\ ((4 <= resolution_rank name)%nat <-> 1900 <= w /\ 1000 <= h)
  /\ ((3 <= resolution_rank name)%nat <-> 1260 <= w /\ 700 <= h)
  /\ ((2 <= resolution_rank name)%nat <-> 1000 <= w /\ 560 <= h).
Proof.
  intros Hw Hh name. subst name. unfold Details.getResolutionName.
  destruct (Z.geb_spec w 3800), (Z.geb_spec h 2100); cbn [andb];
    [split; [cbn [In]; auto 10 | vm_compute resolution_rank; lia] | | |];
    (destruct (Z.geb_spec w 2500), (Z.geb_spec h 1400); cbn [andb];
     [split; [cbn [In]; auto 10 | vm_compute resolution_rank; lia] | | |]);
    (destruct (Z.geb_spec w 1900), (Z.geb_spec h 1000); cbn [andb];
     [split; [cbn [In]; auto 10 | vm_compute resolution_rank; lia] | | |]);
    (destruct (Z.geb_spec w 1260), (Z.geb_spec h 700); cbn [andb];
     [split; [cbn [In]; auto 10 | vm_compute resolution_rank; lia] | | |]);
    (destruct (Z.geb_spec w 1000), (Z.geb_spec h 560); cbn [andb];
     [split; [cbn [In]; auto 10 | vm_compute resolution_rank; lia] | | |]);
    (destruct (Z.geb_spec w 850), (Z.geb_spec h 460); cbn [andb];
     [split; [cbn [In]; auto 10 | vm_compute resolution_rank; lia] | | |]);
    exfalso; lia.
Qed.

(** X13. The resolution badge: a picture of at least 850 x 460 gets one of
    the six class names, and a picture that is at least as wide and at
    least as high as another never gets a lower class. *)
Theorem resolution_name_monotone w h w' h' :
  850 <= w -> 460 <= h -> w <= w' -> h <= h' ->
  In (Details.getResolutionName w h) ["4K"; "1440P"; "1080P"; "720P"; "576P"; "480P"]
  /\ (resolution_rank (Details.getResolutionName w h)
      <= resolution_rank (Details.getResolutionName w' h'))%nat.
Proof.
  intros Hw Hh Hww Hhh.
  pose proof (resolution_rank_tiers w h Hw Hh) as H.
  pose proof (resolution_rank_tiers w' h' ltac:(lia) ltac:(lia)) as H'.
  cbv zeta in H, H'. destruct H as [Hin H]. destruct H' as [_ H'].
  split; [exact Hin |].
  set (r := resolution_rank (Details.getResolutionName w h)) in *.
  set (r' := resolution_rank (Details.getResolutionName w' h')) in *.
  clearbody r r'. lia.
Qed.

Lemma resolution_name_monotone_witness :
  (resolution_rank (Details.getResolutionName 1280 720)
   <= resolution_rank (Details.getResolutionName 1920 1080))%nat.
Proof.
  apply (proj2 (resolution_name_monotone 1280 720 1920 1080
                  ltac:(lia) ltac:(lia) ltac:(lia) ltac:(lia))).
Defined.

(** Below that size the badge is the height, which is not monotone: a
    narrow picture of height 1080 is labelled 1080P, a wider one of the
    same height 576P. *)
Example resolution_name_below_the_classes :
  Details.getResolutionName 100 1080 = "1080P"
  /\ Details.getResolutionName 1000 1080 = "576P".
Proof. split; reflexivity. Qed.

(* ------------------------------------------------------------------ *)
(** *** The track buttons *)

Lemma strict_eq_refl a : Details.strict_eq a a = true.
Proof. destruct a; cbn; [apply Z.eqb_refl | reflexivity]. Qed.

Lemma strict_eq_true a b : Details.strict_eq a b = true -> a = b.
Proof.
  destruct a, b; cbn; intros H; try discriminate; [| reflexivity].
  apply Z.eqb_eq in H. congruence.
Qed.

Lemma strict_eq_false a b : a <> b -> Details.strict_eq a b = false.
Proof.
  intros H. destruct (Details.strict_eq a b) eqn:E; [| reflexivity].
  apply strict_eq_true in E. contradiction.
Qed.

(** With pairwise different indices, [findIndex] finds a stream where
    it is. *)
Lemma findIndex_from_position (options : list Details.Stream) :
  NoDup (map Details.index options) ->
  forall k i, (k < List.length options)%nat ->
    Details.findIndex_from i
      (fun s => Details.strict_eq (Details.index s)
                  (Details.index (nth k options Details.off))) options
    = i + Z.of_nat k.
Proof.
  induction options as [| x options IH]; intros Hnd k i Hk; [cbn in Hk; lia |].
  cbn [map] in Hnd. inversion Hnd as [| ? ? Hx Hnd']; subst.
  destruct k as [| k]; cbn [nth Details.findIndex_from].
  - rewrite strict_eq_refl. lia.
  - cbn [List.length] in Hk.
    assert (Hin : In (Details.index (nth k options Details.off)) (map Details.index options))
      by (apply in_map, nth_In; lia).
    rewrite strict_eq_false by (intros E; rewrite E in Hx; contradiction).
    rewrite (IH Hnd' k (i + 1)) by lia. lia.
Qed.

Lemma findIndex_from_absent {A : Type} (p : A -> bool) (arr : list A) :
  (forall x, In x arr -> p x = false) -> forall i, Details.findIndex_from i p arr = -1.
Proof.
  induction arr as [| x arr IH]; intros H i; [reflexivity |].
  cbn [Details.findIndex_from]. rewrite (H x (or_introl eq_refl)).
  apply IH. intros y Hy. apply H. right. exact Hy.
Qed.

Lemma index_at_position (options : list Details.Stream) k :
  (k < List.length options)%nat ->
  Details.index_at options (Z.of_nat k)
  = Normal (Details.index (nth k options Details.off)).
Proof.
  intros Hk. unfold Details.index_at.
  destruct (Z.ltb_spec (Z.of_nat k) 0); [lia |].
  rewrite Nat2Z.id. destruct (nth_error options k) as [s |] eqn:E.
  - rewrite (nth_error_nth _ _ Details.off E). reflexivity.
  - apply nth_error_None in E. lia.
Qed.

Lemma next_from_position options k :
  NoDup (map Details.index options) ->
  (k < List.length options)%nat ->
  next_option options (Details.index (nth k options Details.off))
  = Normal (Details.index (nth (S k mod List.length options) options Details.off)).
Proof.
  intros distinct Hk. unfold next_option, Details.findIndex.
  rewrite (findIndex_from_position options distinct k 0 Hk).
  replace (0 + Z.of_nat k + 1) with (Z.of_nat (S k)) by lia.
  rewrite <- Nat2Z.inj_mod. apply index_at_position.
  apply Nat.mod_upper_bound. lia.
Qed.

Lemma next_from_elsewhere options selected :
  options <> [] ->
  (forall s, In s options -> Details.index s <> selected) ->
  next_option options selected = Normal (Details.index (nth 0 options Details.off)).
Proof.
  intros Hne Hnot. unfold next_option, Details.findIndex.
  rewrite findIndex_from_absent
    by (intros s Hs; apply strict_eq_false, Hnot, Hs).
  replace (-1 + 1) with 0 by lia. rewrite Z.mod_0_l.
  - apply (index_at_position options 0). destruct options; [contradiction | cbn; lia].
  - destruct options; [contradiction | cbn [List.length]; lia].
Qed.

Lemma press_from_position options (handler : option Z -> Completion (option Z)) :
  NoDup (map Details.index options) ->
  (forall selected, handler selected = next_option options selected) ->
  forall n k, (k < List.length options)%nat ->
    press handler n (Details.index (nth k options Details.off))
    = Normal (Details.index (nth ((k + n) mod List.length options) options Details.off)).
Proof.
  intros distinct Hh. induction n as [| n IH]; intros k Hk; cbn [press].
  - rewrite Nat.add_0_r, Nat.mod_small by exact Hk. reflexivity.
  - rewrite Hh, (next_from_position options k distinct Hk).
    rewrite IH by (apply Nat.mod_upper_bound; lia).
    rewrite Nat.Div0.add_mod_idemp_l.
    replace (S k + n)%nat with (k + S n)%nat by lia. reflexivity.
Qed.

(** X14. The audio button, when the streams have pairwise different
    indices: from the k-th stream it selects the next one and from the
    last one the first; from a selection that is none of the streams it
    selects the first; it never throws; and pressing it once per stream
    comes back to the selection it started from. *)
Theorem audio_button_cycles audioStreams k s :
  NoDup (map Details.index audioStreams) ->
  nth_error audioStreams k = Some s ->
  Details.nextAudio audioStreams (Details.index s)
  = Normal (Details.index (nth (S k mod List.length audioStreams) audioStreams s))
  /\ press (Details.nextAudio audioStreams) (List.length audioStreams) (Details.index s)
     = Normal (Details.index s)
  /\ (forall selected,
        (forall x, In x audioStreams -> Details.index x <> selected) ->
        Details.nextAudio audioStreams selected
        = Normal (Details.index (hd s audioStreams))).
Proof.
  intros Hnd Hs.
  assert (Hk : (k < List.length audioStreams)%nat)
    by (apply nth_error_Some; rewrite Hs; discriminate).
  assert (Es : Details.index s = Details.index (nth k audioStreams Details.off))
    by (rewrite (nth_error_nth _ _ Details.off Hs); reflexivity).
  assert (Hm : (S k mod List.length audioStreams < List.length audioStreams)%nat)
    by (apply Nat.mod_upper_bound; lia).
  split; [| split].
  - rewrite Es.
    change (next_option audioStreams (Details.index (nth k audioStreams Details.off))
            = Normal (Details.index (nth (S k mod List.length audioStreams) audioStreams s))).
    rewrite (next_from_position audioStreams k Hnd Hk).
    rewrite (nth_indep audioStreams Details.off s Hm). reflexivity.
  - rewrite Es.
    rewrite (press_from_position audioStreams (Details.nextAudio audioStreams) Hnd
               (fun _ => eq_refl) (List.length audioStreams) k Hk).
    replace ((k + List.length audioStreams) mod List.length audioStreams)%nat with k;
      [reflexivity |].
    rewrite <- Nat.Div0.add_mod_idemp_r, Nat.Div0.mod_same, Nat.add_0_r, Nat.mod_small; lia.
  - intros selected Hnot.
    change (next_option audioStreams selected = Normal (Details.index (hd s audioStreams))).
    rewrite (next_from_elsewhere audioStreams selected).
    + destruct audioStreams; [cbn in Hk; lia | reflexivity].
    + intros E. rewrite E in Hk. cbn in Hk. lia.
    + exact Hnot.
Qed.

Lemma audio_button_cycles_witness :
  Details.nextAudio
    [ {| Details.index := Some 1; Details.displayTitle := Some "English" |};
      {| Details.index := Some 2; Details.displayTitle := Some "French" |};
      {| Details.index := Some 5; Details.displayTitle := None |} ]
    (Some 5)
  = Normal (Some 1).
Proof.
  refine (proj1 (audio_button_cycles
                   [ {| Details.index := Some 1; Details.displayTitle := Some "English" |};
                     {| Details.index := Some 2; Details.displayTitle := Some "French" |};
                     {| Details.index := Some 5; Details.displayTitle := None |} ]
                   2 {| Details.index := Some 5; Details.displayTitle := None |} _ _)).
  - cbn [map Details.index]. repeat constructor; cbn; intuition discriminate.
  - reflexivity.
Defined.

(** X15. The subtitle button, when the streams have pairwise different
    indices, none of them null: from Off it selects the first stream,
    from a stream the next one and from the last one Off; pressing it
    once per stream and once more comes back to Off. *)
Theorem subtitle_button_cycles subtitleStreams :
  NoDup (map Details.index subtitleStreams) ->
  Forall (fun s => Details.index s <> None) subtitleStreams ->
  Details.nextSubtitle subtitleStreams None
  = Normal (Details.index (hd Details.off subtitleStreams))
  /\ (forall k s,
        nth_error subtitleStreams k = Some s ->
        Details.nextSubtitle subtitleStreams (Details.index s)
        = Normal (Details.index (nth (S k) subtitleStreams Details.off)))
  /\ press (Details.nextSubtitle subtitleStreams) (S (List.length subtitleStreams)) None
     = Normal None.
Proof.
  intros Hnd Hsome.
  assert (Hall : NoDup (map Details.index (Details.off :: subtitleStreams))).
  { cbn [map]. constructor; [| exact Hnd].
    intros Hin. apply in_map_iff in Hin as (s & Es & Hs).
    rewrite Forall_forall in Hsome. apply (Hsome s Hs). exact Es. }
  assert (Hstep : forall j, (j < S (List.length subtitleStreams))%nat ->
            Details.nextSubtitle subtitleStreams
              (Details.index (nth j (Details.off :: subtitleStreams) Details.off))
            = Normal (Details.index (nth j subtitleStreams Details.off))).
  { intros j Hj.
    change (Details.nextSubtitle subtitleStreams ?x)
      with (next_option (Details.off :: subtitleStreams) x).
    rewrite (next_from_position (Details.off :: subtitleStreams) j Hall Hj).
    cbn [List.length]. f_equal. f_equal.
    destruct (Nat.eq_dec (S j) (S (List.length subtitleStreams))) as [E | E].
    - rewrite E, Nat.Div0.mod_same. cbn [nth].
      rewrite nth_overflow by lia. reflexivity.
    - rewrite Nat.mod_small by lia. reflexivity. }
  split; [| split].
  - pose proof (Hstep 0%nat ltac:(lia)) as H0. cbn [nth] in H0.
    change (Details.index Details.off) with (@None Z) in H0. rewrite H0.
    destruct subtitleStreams; reflexivity.
  - intros k s Hs.
    assert (Hk : (k < List.length subtitleStreams)%nat)
      by (apply nth_error_Some; rewrite Hs; discriminate).
    rewrite <- (Hstep (S k)) by lia. cbn [nth].
    rewrite (nth_error_nth _ _ Details.off Hs). reflexivity.
  - pose proof (press_from_position (Details.off :: subtitleStreams)
                  (Details.nextSubtitle subtitleStreams) Hall (fun _ => eq_refl)
                  (S (List.length subtitleStreams)) 0
                  ltac:(cbn [List.length]; lia)) as Hp.
    cbn [List.length Nat.add] in Hp. rewrite Nat.Div0.mod_same in Hp. exact Hp.
Qed.

Lemma subtitle_button_cycles_witness :
  Details.nextSubtitle
    [ {| Details.index := Some 3; Details.displayTitle := Some "English" |};
      {| Details.index := Some 4; Details.displayTitle := Some "German" |} ]
    None
  = Normal (Some 3).
Proof.
  refine (proj1 (subtitle_button_cycles
                   [ {| Details.index := Some 3; Details.displayTitle := Some "English" |};
                     {| Details.index := Some 4; Details.displayTitle := Some "German" |} ]
                   _ _)).
  - cbn [map Details.index]. repeat constructor; cbn; intuition discriminate.
  - repeat constructor; discriminate.
Defined.
